(** * GridPath UI: the scenario-results component

    A shallow embedding of [ScenarioResultsComponent]
    (ui/src/app/scenario-results/scenario-results.component.ts): the
    component's fields, its methods as state transformers over the page's
    world (component, selection subject, route, HTTP requests in flight,
    Bokeh embeddings), and the properties of view activation. *)

From stdpp Require Import base option list strings gmap pretty.

Open Scope string_scope.
Open Scope list_scope.
Open Scope nat_scope.

(** ** JavaScript values *)

(** Values a form control holds and the service receives. Numbers are the
    integers the page deals in (scenario ids, y-axis bounds). *)
Inductive JsVal : Type :=
  | JUndefined
  | JNull
  | JNum (n : Z)
  | JStr (s : string).

#[global] Instance JsVal_eq_dec : EqDecision JsVal.
Proof. solve_decision. Defined.

(** [v === null] *)
Definition is_null (v : JsVal) : bool :=
  match v with JNull => true | _ => false end.

(** ToString, as applied to a substitution [${v}] of a template literal. *)
Definition to_js_string (v : JsVal) : string :=
  match v with
  | JUndefined => "undefined"
  | JNull => "null"
  | JNum n => pretty n
  | JStr s => s
  end.

(** [field === 'literal'] for a field of declared type [string] that is
    [undefined] ([None]) until first assigned. *)
Definition strict_eq (field : option string) (literal : string) : bool :=
  match field with
  | Some s => String.eqb s literal
  | None => false
  end.

(** [form.value.control]: the value object of a [FormGroup] maps control
    names to values; a name it does not hold reads as [undefined]. *)
Definition form_value (form : gmap string JsVal) (control : string) : JsVal :=
  default JUndefined (form !! control).

(** Errors and completions of a statement. *)
Inductive JsError : Type :=
  | TypeError (msg : string).

Inductive Completion (A : Type) : Type :=
  | Normal (a : A)
  | Throw (e : JsError).
Arguments Normal {A} a.
Arguments Throw {A} e.

(** ** The service the component talks to *)

Module Service.

(** Modelled from the spec: [ScenarioResultsService]
    (scenario-results.service.ts, not among the sources), as far as the
    component calls it. These are its methods that return the observable
    of one HTTP answer: [getOptions(scenarioID)], a table method per table
    view taking the scenario id, a plot method per plot view taking the
    scenario id and the filter values. *)
Inductive Method : Type :=
  | getOptions
  | getResultsProjectCapacity
  | getResultsProjectRetirements
  | getResultsProjectNewBuild
  | getResultsProjectDispatch
  | getResultsProjectCarbon
  | getResultsTransmissionCapacity
  | getResultsTransmissionFlows
  | getResultsImportsExports
  | getResultsSystemLoadBalance
  | getResultsSystemRPS
  | getResultsSystemCarbonCap
  | getResultsSystemPRM
  | getResultsDispatchPlot
  | getResultsCapacityNewPlot
  | getResultsCapacityRetiredPlot
  | getResultsCapacityTotalPlot
  | getResultsEnergyPlot
  | getResultsCostPlot
  | getResultsCapacityFactorPlot.

#[global] Instance Method_eq_dec : EqDecision Method.
Proof. solve_decision. Defined.

(** One invocation: the method and its actual arguments. *)
Record Call : Type := call { method : Method; args : list JsVal }.

(** Modelled from the spec: what [getOptions] answers, the option lists
    of the three kinds of select filter. *)
Record PlotOptions : Type := {
  loadZoneOptions : list string;
  horizonOptions : list string;
  stageOptions : list string
}.

(** The result fetches: every method but [getOptions]. *)
Definition is_results_fetch (c : Call) : bool :=
  match method c with getOptions => false | _ => true end.

End Service.

(** ** Shapes of './scenario-results'

    The interfaces [ResultsButton] and [ResultsForm] are declared outside
    the component; their fields are those of the object literals that
    [makeResultsButtons] and [makeResultsForms] build. *)

(** The plot views, which also name the component's seven form groups. *)
Inductive PlotView : Type :=
  | DispatchPlot
  | CapacityNewPlot
  | CapacityRetiredPlot
  | CapacityTotalPlot
  | EnergyPlot
  | CostPlot
  | CapacityFactorPlot.

(** The table views. *)
Inductive TableView : Type :=
  | ProjectCapacity
  | ProjectRetirements
  | ProjectNewBuild
  | ProjectDispatch
  | ProjectCarbon
  | TransmissionCapacity
  | TransmissionFlows
  | ImportsExports
  | SystemLoadBalance
  | SystemRPS
  | SystemCarbonCap
  | SystemPRM.

Record ResultsButton : Type := {
  name : string;
  ngIfKey : string;
  caption : string
}.

Record SelectForm : Type := {
  formControlName : string;
  formControlOptions : list string
}.

(** [formGroup] is a reference to one of the component's form groups, given
    here by the plot view that owns it. *)
Record ResultsForm : Type := {
  formGroup : PlotView;
  selectForms : list SelectForm;
  yMaxFormControlName : string;
  button : ResultsButton
}.

Section Component.

(** Table rows and Bokeh plot descriptions are opaque to the component. *)
Context {ScenarioResults PlotJSON : Type}.

(** ** The component's fields *)

Record Component : Type := mkComponent {
  resultsToShow : option string;
  allResultsButtons : option (list ResultsButton);
  allResultsForms : option (list ResultsForm);
  allTables : option (list ScenarioResults);
  resultsProjectCapacity : option ScenarioResults;
  resultsProjectRetirements : option ScenarioResults;
  resultsProjectNewBuild : option ScenarioResults;
  resultsProjectDispatch : option ScenarioResults;
  resultsProjectCarbon : option ScenarioResults;
  resultsTransmissionCapacity : option ScenarioResults;
  resultsTransmissionFlows : option ScenarioResults;
  resultsImportsExports : option ScenarioResults;
  resultsSystemLoadBalance : option ScenarioResults;
  resultsSystemRPS : option ScenarioResults;
  resultsSystemCarbonCap : option ScenarioResults;
  resultsSystemPRM : option ScenarioResults;
  dispatchPlotOptionsForm : gmap string JsVal;
  dispatchPlotJSON : option PlotJSON;
  dispatchPlotHTMLName : option string;
  capacityNewPlotOptionsForm : gmap string JsVal;
  capacityNewPlotJSON : option PlotJSON;
  capacityNewPlotHTMLName : option string;
  capacityRetiredPlotOptionsForm : gmap string JsVal;
  capacityRetiredPlotJSON : option PlotJSON;
  capacityRetiredPlotHTMLName : option string;
  capacityTotalPlotOptionsForm : gmap string JsVal;
  capacityTotalPlotJSON : option PlotJSON;
  capacityTotalPlotHTMLName : option string;
  energyPlotOptionsForm : gmap string JsVal;
  energyPlotJSON : option PlotJSON;
  energyPlotHTMLName : option string;
  costPlotOptionsForm : gmap string JsVal;
  costPlotJSON : option PlotJSON;
  costPlotHTMLName : option string;
  capacityFactorPlotOptionsForm : gmap string JsVal;
  capacityFactorPlotJSON : option PlotJSON;
  capacityFactorPlotHTMLName : option string;
  scenarioID : JsVal
}.

(** [this.field = v], field by field: the record is rebuilt with [v] in
    the field's place. *)

Definition set_resultsToShow (v : option string) (c : Component) : Component :=
  let '(mkComponent _ x1 x2 x3 x4 x5 x6 x7 x8 x9 x10 x11 x12 x13 x14 x15
  x16 x17 x18 x19 x20 x21 x22 x23 x24 x25 x26 x27 x28 x29 x30 x31 x32 x33
  x34 x35 x36 x37) := c in
  mkComponent v x1 x2 x3 x4 x5 x6 x7 x8 x9 x10 x11 x12 x13 x14 x15 x16 x17
  x18 x19 x20 x21 x22 x23 x24 x25 x26 x27 x28 x29 x30 x31 x32 x33 x34 x35
  x36 x37.

Definition set_allResultsButtons (v : option (list ResultsButton)) (c : Component) : Component :=
  let '(mkComponent x0 _ x2 x3 x4 x5 x6 x7 x8 x9 x10 x11 x12 x13 x14 x15
  x16 x17 x18 x19 x20 x21 x22 x23 x24 x25 x26 x27 x28 x29 x30 x31 x32 x33
  x34 x35 x36 x37) := c in
  mkComponent x0 v x2 x3 x4 x5 x6 x7 x8 x9 x10 x11 x12 x13 x14 x15 x16 x17
  x18 x19 x20 x21 x22 x23 x24 x25 x26 x27 x28 x29 x30 x31 x32 x33 x34 x35
  x36 x37.

Definition set_allResultsForms (v : option (list ResultsForm)) (c : Component) : Component :=
  let '(mkComponent x0 x1 _ x3 x4 x5 x6 x7 x8 x9 x10 x11 x12 x13 x14 x15
  x16 x17 x18 x19 x20 x21 x22 x23 x24 x25 x26 x27 x28 x29 x30 x31 x32 x33
  x34 x35 x36 x37) := c in
  mkComponent x0 x1 v x3 x4 x5 x6 x7 x8 x9 x10 x11 x12 x13 x14 x15 x16 x17
  x18 x19 x20 x21 x22 x23 x24 x25 x26 x27 x28 x29 x30 x31 x32 x33 x34 x35
  x36 x37.

Definition set_allTables (v : option (list ScenarioResults)) (c : Component) : Component :=
  let '(mkComponent x0 x1 x2 _ x4 x5 x6 x7 x8 x9 x10 x11 x12 x13 x14 x15
  x16 x17 x18 x19 x20 x21 x22 x23 x24 x25 x26 x27 x28 x29 x30 x31 x32 x33
  x34 x35 x36 x37) := c in
  mkComponent x0 x1 x2 v x4 x5 x6 x7 x8 x9 x10 x11 x12 x13 x14 x15 x16 x17
  x18 x19 x20 x21 x22 x23 x24 x25 x26 x27 x28 x29 x30 x31 x32 x33 x34 x35
  x36 x37.

Definition set_resultsProjectCapacity (v : option ScenarioResults) (c : Component) : Component :=
  let '(mkComponent x0 x1 x2 x3 _ x5 x6 x7 x8 x9 x10 x11 x12 x13 x14 x15
  x16 x17 x18 x19 x20 x21 x22 x23 x24 x25 x26 x27 x28 x29 x30 x31 x32 x33
  x34 x35 x36 x37) := c in
  mkComponent x0 x1 x2 x3 v x5 x6 x7 x8 x9 x10 x11 x12 x13 x14 x15 x16 x17
  x18 x19 x20 x21 x22 x23 x24 x25 x26 x27 x28 x29 x30 x31 x32 x33 x34 x35
  x36 x37.

Definition set_resultsProjectRetirements (v : option ScenarioResults) (c : Component) : Component :=
  let '(mkComponent x0 x1 x2 x3 x4 _ x6 x7 x8 x9 x10 x11 x12 x13 x14 x15
  x16 x17 x18 x19 x20 x21 x22 x23 x24 x25 x26 x27 x28 x29 x30 x31 x32 x33
  x34 x35 x36 x37) := c in
  mkComponent x0 x1 x2 x3 x4 v x6 x7 x8 x9 x10 x11 x12 x13 x14 x15 x16 x17
  x18 x19 x20 x21 x22 x23 x24 x25 x26 x27 x28 x29 x30 x31 x32 x33 x34 x35
  x36 x37.

Definition set_resultsProjectNewBuild (v : option ScenarioResults) (c : Component) : Component :=
  let '(mkComponent x0 x1 x2 x3 x4 x5 _ x7 x8 x9 x10 x11 x12 x13 x14 x15
  x16 x17 x18 x19 x20 x21 x22 x23 x24 x25 x26 x27 x28 x29 x30 x31 x32 x33
  x34 x35 x36 x37) := c in
  mkComponent x0 x1 x2 x3 x4 x5 v x7 x8 x9 x10 x11 x12 x13 x14 x15 x16 x17
  x18 x19 x20 x21 x22 x23 x24 x25 x26 x27 x28 x29 x30 x31 x32 x33 x34 x35
  x36 x37.

Definition set_resultsProjectDispatch (v : option ScenarioResults) (c : Component) : Component :=
  let '(mkComponent x0 x1 x2 x3 x4 x5 x6 _ x8 x9 x10 x11 x12 x13 x14 x15
  x16 x17 x18 x19 x20 x21 x22 x23 x24 x25 x26 x27 x28 x29 x30 x31 x32 x33
  x34 x35 x36 x37) := c in
  mkComponent x0 x1 x2 x3 x4 x5 x6 v x8 x9 x10 x11 x12 x13 x14 x15 x16 x17
  x18 x19 x20 x21 x22 x23 x24 x25 x26 x27 x28 x29 x30 x31 x32 x33 x34 x35
  x36 x37.

Definition set_resultsProjectCarbon (v : option ScenarioResults) (c : Component) : Component :=
  let '(mkComponent x0 x1 x2 x3 x4 x5 x6 x7 _ x9 x10 x11 x12 x13 x14 x15
  x16 x17 x18 x19 x20 x21 x22 x23 x24 x25 x26 x27 x28 x29 x30 x31 x32 x33
  x34 x35 x36 x37) := c in
  mkComponent x0 x1 x2 x3 x4 x5 x6 x7 v x9 x10 x11 x12 x13 x14 x15 x16 x17
  x18 x19 x20 x21 x22 x23 x24 x25 x26 x27 x28 x29 x30 x31 x32 x33 x34 x35
  x36 x37.

Definition set_resultsTransmissionCapacity (v : option ScenarioResults) (c : Component) : Component :=
  let '(mkComponent x0 x1 x2 x3 x4 x5 x6 x7 x8 _ x10 x11 x12 x13 x14 x15
  x16 x17 x18 x19 x20 x21 x22 x23 x24 x25 x26 x27 x28 x29 x30 x31 x32 x33
  x34 x35 x36 x37) := c in
  mkComponent x0 x1 x2 x3 x4 x5 x6 x7 x8 v x10 x11 x12 x13 x14 x15 x16 x17
  x18 x19 x20 x21 x22 x23 x24 x25 x26 x27 x28 x29 x30 x31 x32 x33 x34 x35
  x36 x37.

Definition set_resultsTransmissionFlows (v : option ScenarioResults) (c : Component) : Component :=
  let '(mkComponent x0 x1 x2 x3 x4 x5 x6 x7 x8 x9 _ x11 x12 x13 x14 x15 x16
  x17 x18 x19 x20 x21 x22 x23 x24 x25 x26 x27 x28 x29 x30 x31 x32 x33 x34
  x35 x36 x37) := c in
  mkComponent x0 x1 x2 x3 x4 x5 x6 x7 x8 x9 v x11 x12 x13 x14 x15 x16 x17
  x18 x19 x20 x21 x22 x23 x24 x25 x26 x27 x28 x29 x30 x31 x32 x33 x34 x35
  x36 x37.

Definition set_resultsImportsExports (v : option ScenarioResults) (c : Component) : Component :=
  let '(mkComponent x0 x1 x2 x3 x4 x5 x6 x7 x8 x9 x10 _ x12 x13 x14 x15 x16
  x17 x18 x19 x20 x21 x22 x23 x24 x25 x26 x27 x28 x29 x30 x31 x32 x33 x34
  x35 x36 x37) := c in
  mkComponent x0 x1 x2 x3 x4 x5 x6 x7 x8 x9 x10 v x12 x13 x14 x15 x16 x17
  x18 x19 x20 x21 x22 x23 x24 x25 x26 x27 x28 x29 x30 x31 x32 x33 x34 x35
  x36 x37.

Definition set_resultsSystemLoadBalance (v : option ScenarioResults) (c : Component) : Component :=
  let '(mkComponent x0 x1 x2 x3 x4 x5 x6 x7 x8 x9 x10 x11 _ x13 x14 x15 x16
  x17 x18 x19 x20 x21 x22 x23 x24 x25 x26 x27 x28 x29 x30 x31 x32 x33 x34
  x35 x36 x37) := c in
  mkComponent x0 x1 x2 x3 x4 x5 x6 x7 x8 x9 x10 x11 v x13 x14 x15 x16 x17
  x18 x19 x20 x21 x22 x23 x24 x25 x26 x27 x28 x29 x30 x31 x32 x33 x34 x35
  x36 x37.

Definition set_resultsSystemRPS (v : option ScenarioResults) (c : Component) : Component :=
  let '(mkComponent x0 x1 x2 x3 x4 x5 x6 x7 x8 x9 x10 x11 x12 _ x14 x15 x16
  x17 x18 x19 x20 x21 x22 x23 x24 x25 x26 x27 x28 x29 x30 x31 x32 x33 x34
  x35 x36 x37) := c in
  mkComponent x0 x1 x2 x3 x4 x5 x6 x7 x8 x9 x10 x11 x12 v x14 x15 x16 x17
  x18 x19 x20 x21 x22 x23 x24 x25 x26 x27 x28 x29 x30 x31 x32 x33 x34 x35
  x36 x37.

Definition set_resultsSystemCarbonCap (v : option ScenarioResults) (c : Component) : Component :=
  let '(mkComponent x0 x1 x2 x3 x4 x5 x6 x7 x8 x9 x10 x11 x12 x13 _ x15 x16
  x17 x18 x19 x20 x21 x22 x23 x24 x25 x26 x27 x28 x29 x30 x31 x32 x33 x34
  x35 x36 x37) := c in
  mkComponent x0 x1 x2 x3 x4 x5 x6 x7 x8 x9 x10 x11 x12 x13 v x15 x16 x17
  x18 x19 x20 x21 x22 x23 x24 x25 x26 x27 x28 x29 x30 x31 x32 x33 x34 x35
  x36 x37.

Definition set_resultsSystemPRM (v : option ScenarioResults) (c : Component) : Component :=
  let '(mkComponent x0 x1 x2 x3 x4 x5 x6 x7 x8 x9 x10 x11 x12 x13 x14 _ x16
  x17 x18 x19 x20 x21 x22 x23 x24 x25 x26 x27 x28 x29 x30 x31 x32 x33 x34
  x35 x36 x37) := c in
  mkComponent x0 x1 x2 x3 x4 x5 x6 x7 x8 x9 x10 x11 x12 x13 x14 v x16 x17
  x18 x19 x20 x21 x22 x23 x24 x25 x26 x27 x28 x29 x30 x31 x32 x33 x34 x35
  x36 x37.

Definition set_dispatchPlotOptionsForm (v : gmap string JsVal) (c : Component) : Component :=
  let '(mkComponent x0 x1 x2 x3 x4 x5 x6 x7 x8 x9 x10 x11 x12 x13 x14 x15 _
  x17 x18 x19 x20 x21 x22 x23 x24 x25 x26 x27 x28 x29 x30 x31 x32 x33 x34
  x35 x36 x37) := c in
  mkComponent x0 x1 x2 x3 x4 x5 x6 x7 x8 x9 x10 x11 x12 x13 x14 x15 v x17
  x18 x19 x20 x21 x22 x23 x24 x25 x26 x27 x28 x29 x30 x31 x32 x33 x34 x35
  x36 x37.

Definition set_dispatchPlotJSON (v : option PlotJSON) (c : Component) : Component :=
  let '(mkComponent x0 x1 x2 x3 x4 x5 x6 x7 x8 x9 x10 x11 x12 x13 x14 x15
  x16 _ x18 x19 x20 x21 x22 x23 x24 x25 x26 x27 x28 x29 x30 x31 x32 x33 x34
  x35 x36 x37) := c in
  mkComponent x0 x1 x2 x3 x4 x5 x6 x7 x8 x9 x10 x11 x12 x13 x14 x15 x16 v
  x18 x19 x20 x21 x22 x23 x24 x25 x26 x27 x28 x29 x30 x31 x32 x33 x34 x35
  x36 x37.

Definition set_dispatchPlotHTMLName (v : option string) (c : Component) : Component :=
  let '(mkComponent x0 x1 x2 x3 x4 x5 x6 x7 x8 x9 x10 x11 x12 x13 x14 x15
  x16 x17 _ x19 x20 x21 x22 x23 x24 x25 x26 x27 x28 x29 x30 x31 x32 x33 x34
  x35 x36 x37) := c in
  mkComponent x0 x1 x2 x3 x4 x5 x6 x7 x8 x9 x10 x11 x12 x13 x14 x15 x16 x17
  v x19 x20 x21 x22 x23 x24 x25 x26 x27 x28 x29 x30 x31 x32 x33 x34 x35 x36
  x37.

Definition set_capacityNewPlotOptionsForm (v : gmap string JsVal) (c : Component) : Component :=
  let '(mkComponent x0 x1 x2 x3 x4 x5 x6 x7 x8 x9 x10 x11 x12 x13 x14 x15
  x16 x17 x18 _ x20 x21 x22 x23 x24 x25 x26 x27 x28 x29 x30 x31 x32 x33 x34
  x35 x36 x37) := c in
  mkComponent x0 x1 x2 x3 x4 x5 x6 x7 x8 x9 x10 x11 x12 x13 x14 x15 x16 x17
  x18 v x20 x21 x22 x23 x24 x25 x26 x27 x28 x29 x30 x31 x32 x33 x34 x35 x36
  x37.

Definition set_capacityNewPlotJSON (v : option PlotJSON) (c : Component) : Component :=
  let '(mkComponent x0 x1 x2 x3 x4 x5 x6 x7 x8 x9 x10 x11 x12 x13 x14 x15
  x16 x17 x18 x19 _ x21 x22 x23 x24 x25 x26 x27 x28 x29 x30 x31 x32 x33 x34
  x35 x36 x37) := c in
  mkComponent x0 x1 x2 x3 x4 x5 x6 x7 x8 x9 x10 x11 x12 x13 x14 x15 x16 x17
  x18 x19 v x21 x22 x23 x24 x25 x26 x27 x28 x29 x30 x31 x32 x33 x34 x35 x36
  x37.

Definition set_capacityNewPlotHTMLName (v : option string) (c : Component) : Component :=
  let '(mkComponent x0 x1 x2 x3 x4 x5 x6 x7 x8 x9 x10 x11 x12 x13 x14 x15
  x16 x17 x18 x19 x20 _ x22 x23 x24 x25 x26 x27 x28 x29 x30 x31 x32 x33 x34
  x35 x36 x37) := c in
  mkComponent x0 x1 x2 x3 x4 x5 x6 x7 x8 x9 x10 x11 x12 x13 x14 x15 x16 x17
  x18 x19 x20 v x22 x23 x24 x25 x26 x27 x28 x29 x30 x31 x32 x33 x34 x35 x36
  x37.

Definition set_capacityRetiredPlotOptionsForm (v : gmap string JsVal) (c : Component) : Component :=
  let '(mkComponent x0 x1 x2 x3 x4 x5 x6 x7 x8 x9 x10 x11 x12 x13 x14 x15
  x16 x17 x18 x19 x20 x21 _ x23 x24 x25 x26 x27 x28 x29 x30 x31 x32 x33 x34
  x35 x36 x37) := c in
  mkComponent x0 x1 x2 x3 x4 x5 x6 x7 x8 x9 x10 x11 x12 x13 x14 x15 x16 x17
  x18 x19 x20 x21 v x23 x24 x25 x26 x27 x28 x29 x30 x31 x32 x33 x34 x35 x36
  x37.

Definition set_capacityRetiredPlotJSON (v : option PlotJSON) (c : Component) : Component :=
  let '(mkComponent x0 x1 x2 x3 x4 x5 x6 x7 x8 x9 x10 x11 x12 x13 x14 x15
  x16 x17 x18 x19 x20 x21 x22 _ x24 x25 x26 x27 x28 x29 x30 x31 x32 x33 x34
  x35 x36 x37) := c in
  mkComponent x0 x1 x2 x3 x4 x5 x6 x7 x8 x9 x10 x11 x12 x13 x14 x15 x16 x17
  x18 x19 x20 x21 x22 v x24 x25 x26 x27 x28 x29 x30 x31 x32 x33 x34 x35 x36
  x37.

Definition set_capacityRetiredPlotHTMLName (v : option string) (c : Component) : Component :=
  let '(mkComponent x0 x1 x2 x3 x4 x5 x6 x7 x8 x9 x10 x11 x12 x13 x14 x15
  x16 x17 x18 x19 x20 x21 x22 x23 _ x25 x26 x27 x28 x29 x30 x31 x32 x33 x34
  x35 x36 x37) := c in
  mkComponent x0 x1 x2 x3 x4 x5 x6 x7 x8 x9 x10 x11 x12 x13 x14 x15 x16 x17
  x18 x19 x20 x21 x22 x23 v x25 x26 x27 x28 x29 x30 x31 x32 x33 x34 x35 x36
  x37.

Definition set_capacityTotalPlotOptionsForm (v : gmap string JsVal) (c : Component) : Component :=
  let '(mkComponent x0 x1 x2 x3 x4 x5 x6 x7 x8 x9 x10 x11 x12 x13 x14 x15
  x16 x17 x18 x19 x20 x21 x22 x23 x24 _ x26 x27 x28 x29 x30 x31 x32 x33 x34
  x35 x36 x37) := c in
  mkComponent x0 x1 x2 x3 x4 x5 x6 x7 x8 x9 x10 x11 x12 x13 x14 x15 x16 x17
  x18 x19 x20 x21 x22 x23 x24 v x26 x27 x28 x29 x30 x31 x32 x33 x34 x35 x36
  x37.

Definition set_capacityTotalPlotJSON (v : option PlotJSON) (c : Component) : Component :=
  let '(mkComponent x0 x1 x2 x3 x4 x5 x6 x7 x8 x9 x10 x11 x12 x13 x14 x15
  x16 x17 x18 x19 x20 x21 x22 x23 x24 x25 _ x27 x28 x29 x30 x31 x32 x33 x34
  x35 x36 x37) := c in
  mkComponent x0 x1 x2 x3 x4 x5 x6 x7 x8 x9 x10 x11 x12 x13 x14 x15 x16 x17
  x18 x19 x20 x21 x22 x23 x24 x25 v x27 x28 x29 x30 x31 x32 x33 x34 x35 x36
  x37.

Definition set_capacityTotalPlotHTMLName (v : option string) (c : Component) : Component :=
  let '(mkComponent x0 x1 x2 x3 x4 x5 x6 x7 x8 x9 x10 x11 x12 x13 x14 x15
  x16 x17 x18 x19 x20 x21 x22 x23 x24 x25 x26 _ x28 x29 x30 x31 x32 x33 x34
  x35 x36 x37) := c in
  mkComponent x0 x1 x2 x3 x4 x5 x6 x7 x8 x9 x10 x11 x12 x13 x14 x15 x16 x17
  x18 x19 x20 x21 x22 x23 x24 x25 x26 v x28 x29 x30 x31 x32 x33 x34 x35 x36
  x37.

Definition set_energyPlotOptionsForm (v : gmap string JsVal) (c : Component) : Component :=
  let '(mkComponent x0 x1 x2 x3 x4 x5 x6 x7 x8 x9 x10 x11 x12 x13 x14 x15
  x16 x17 x18 x19 x20 x21 x22 x23 x24 x25 x26 x27 _ x29 x30 x31 x32 x33 x34
  x35 x36 x37) := c in
  mkComponent x0 x1 x2 x3 x4 x5 x6 x7 x8 x9 x10 x11 x12 x13 x14 x15 x16 x17
  x18 x19 x20 x21 x22 x23 x24 x25 x26 x27 v x29 x30 x31 x32 x33 x34 x35 x36
  x37.

Definition set_energyPlotJSON (v : option PlotJSON) (c : Component) : Component :=
  let '(mkComponent x0 x1 x2 x3 x4 x5 x6 x7 x8 x9 x10 x11 x12 x13 x14 x15
  x16 x17 x18 x19 x20 x21 x22 x23 x24 x25 x26 x27 x28 _ x30 x31 x32 x33 x34
  x35 x36 x37) := c in
  mkComponent x0 x1 x2 x3 x4 x5 x6 x7 x8 x9 x10 x11 x12 x13 x14 x15 x16 x17
  x18 x19 x20 x21 x22 x23 x24 x25 x26 x27 x28 v x30 x31 x32 x33 x34 x35 x36
  x37.

Definition set_energyPlotHTMLName (v : option string) (c : Component) : Component :=
  let '(mkComponent x0 x1 x2 x3 x4 x5 x6 x7 x8 x9 x10 x11 x12 x13 x14 x15
  x16 x17 x18 x19 x20 x21 x22 x23 x24 x25 x26 x27 x28 x29 _ x31 x32 x33 x34
  x35 x36 x37) := c in
  mkComponent x0 x1 x2 x3 x4 x5 x6 x7 x8 x9 x10 x11 x12 x13 x14 x15 x16 x17
  x18 x19 x20 x21 x22 x23 x24 x25 x26 x27 x28 x29 v x31 x32 x33 x34 x35 x36
  x37.

Definition set_costPlotOptionsForm (v : gmap string JsVal) (c : Component) : Component :=
  let '(mkComponent x0 x1 x2 x3 x4 x5 x6 x7 x8 x9 x10 x11 x12 x13 x14 x15
  x16 x17 x18 x19 x20 x21 x22 x23 x24 x25 x26 x27 x28 x29 x30 _ x32 x33 x34
  x35 x36 x37) := c in
  mkComponent x0 x1 x2 x3 x4 x5 x6 x7 x8 x9 x10 x11 x12 x13 x14 x15 x16 x17
  x18 x19 x20 x21 x22 x23 x24 x25 x26 x27 x28 x29 x30 v x32 x33 x34 x35 x36
  x37.

Definition set_costPlotJSON (v : option PlotJSON) (c : Component) : Component :=
  let '(mkComponent x0 x1 x2 x3 x4 x5 x6 x7 x8 x9 x10 x11 x12 x13 x14 x15
  x16 x17 x18 x19 x20 x21 x22 x23 x24 x25 x26 x27 x28 x29 x30 x31 _ x33 x34
  x35 x36 x37) := c in
  mkComponent x0 x1 x2 x3 x4 x5 x6 x7 x8 x9 x10 x11 x12 x13 x14 x15 x16 x17
  x18 x19 x20 x21 x22 x23 x24 x25 x26 x27 x28 x29 x30 x31 v x33 x34 x35 x36
  x37.

Definition set_costPlotHTMLName (v : option string) (c : Component) : Component :=
  let '(mkComponent x0 x1 x2 x3 x4 x5 x6 x7 x8 x9 x10 x11 x12 x13 x14 x15
  x16 x17 x18 x19 x20 x21 x22 x23 x24 x25 x26 x27 x28 x29 x30 x31 x32 _ x34
  x35 x36 x37) := c in
  mkComponent x0 x1 x2 x3 x4 x5 x6 x7 x8 x9 x10 x11 x12 x13 x14 x15 x16 x17
  x18 x19 x20 x21 x22 x23 x24 x25 x26 x27 x28 x29 x30 x31 x32 v x34 x35 x36
  x37.

Definition set_capacityFactorPlotOptionsForm (v : gmap string JsVal) (c : Component) : Component :=
  let '(mkComponent x0 x1 x2 x3 x4 x5 x6 x7 x8 x9 x10 x11 x12 x13 x14 x15
  x16 x17 x18 x19 x20 x21 x22 x23 x24 x25 x26 x27 x28 x29 x30 x31 x32 x33 _
  x35 x36 x37) := c in
  mkComponent x0 x1 x2 x3 x4 x5 x6 x7 x8 x9 x10 x11 x12 x13 x14 x15 x16 x17
  x18 x19 x20 x21 x22 x23 x24 x25 x26 x27 x28 x29 x30 x31 x32 x33 v x35 x36
  x37.

Definition set_capacityFactorPlotJSON (v : option PlotJSON) (c : Component) : Component :=
  let '(mkComponent x0 x1 x2 x3 x4 x5 x6 x7 x8 x9 x10 x11 x12 x13 x14 x15
  x16 x17 x18 x19 x20 x21 x22 x23 x24 x25 x26 x27 x28 x29 x30 x31 x32 x33
  x34 _ x36 x37) := c in
  mkComponent x0 x1 x2 x3 x4 x5 x6 x7 x8 x9 x10 x11 x12 x13 x14 x15 x16 x17
  x18 x19 x20 x21 x22 x23 x24 x25 x26 x27 x28 x29 x30 x31 x32 x33 x34 v x36
  x37.

Definition set_capacityFactorPlotHTMLName (v : option string) (c : Component) : Component :=
  let '(mkComponent x0 x1 x2 x3 x4 x5 x6 x7 x8 x9 x10 x11 x12 x13 x14 x15
  x16 x17 x18 x19 x20 x21 x22 x23 x24 x25 x26 x27 x28 x29 x30 x31 x32 x33
  x34 x35 _ x37) := c in
  mkComponent x0 x1 x2 x3 x4 x5 x6 x7 x8 x9 x10 x11 x12 x13 x14 x15 x16 x17
  x18 x19 x20 x21 x22 x23 x24 x25 x26 x27 x28 x29 x30 x31 x32 x33 x34 x35 v
  x37.

Definition set_scenarioID (v : JsVal) (c : Component) : Component :=
  let '(mkComponent x0 x1 x2 x3 x4 x5 x6 x7 x8 x9 x10 x11 x12 x13 x14 x15
  x16 x17 x18 x19 x20 x21 x22 x23 x24 x25 x26 x27 x28 x29 x30 x31 x32 x33
  x34 x35 x36 _) := c in
  mkComponent x0 x1 x2 x3 x4 x5 x6 x7 x8 x9 x10 x11 x12 x13 x14 x15 x16 x17
  x18 x19 x20 x21 x22 x23 x24 x25 x26 x27 x28 x29 x30 x31 x32 x33 x34 x35
  x36 v.

(** What a plot method answers. *)
Record PlotAPI : Type := { plotJSON : PlotJSON }.

(** The component as constructed: fields without initialiser are
    [undefined], every [new FormControl()] holds [null]. *)
Definition new_component : Component := {|
  resultsToShow := None;
  allResultsButtons := None;
  allResultsForms := None;
  allTables := None;
  resultsProjectCapacity := None;
  resultsProjectRetirements := None;
  resultsProjectNewBuild := None;
  resultsProjectDispatch := None;
  resultsProjectCarbon := None;
  resultsTransmissionCapacity := None;
  resultsTransmissionFlows := None;
  resultsImportsExports := None;
  resultsSystemLoadBalance := None;
  resultsSystemRPS := None;
  resultsSystemCarbonCap := None;
  resultsSystemPRM := None;
  dispatchPlotOptionsForm :=
    {[ "dispatchPlotLoadZone" := JNull; "dispatchPlotHorizon" := JNull;
       "dispatchPlotYMax" := JNull ]};
  dispatchPlotJSON := None;
  dispatchPlotHTMLName := None;
  capacityNewPlotOptionsForm :=
    {[ "capacityNewPlotLoadZone" := JNull; "capacityNewPlotYMax" := JNull ]};
  capacityNewPlotJSON := None;
  capacityNewPlotHTMLName := None;
  capacityRetiredPlotOptionsForm :=
    {[ "capacityRetiredPlotLoadZone" := JNull;
       "capacityRetiredPlotYMax" := JNull ]};
  capacityRetiredPlotJSON := None;
  capacityRetiredPlotHTMLName := None;
  capacityTotalPlotOptionsForm :=
    {[ "capacityTotalPlotLoadZone" := JNull;
       "capacityTotalPlotYMax" := JNull ]};
  capacityTotalPlotJSON := None;
  capacityTotalPlotHTMLName := None;
  energyPlotOptionsForm :=
    {[ "energyPlotLoadZone" := JNull; "energyPlotStage" := JNull;
       "energyPlotYMax" := JNull ]};
  energyPlotJSON := None;
  energyPlotHTMLName := None;
  costPlotOptionsForm :=
    {[ "costPlotLoadZone" := JNull; "costPlotStage" := JNull;
       "costPlotYMax" := JNull ]};
  costPlotJSON := None;
  costPlotHTMLName := None;
  capacityFactorPlotOptionsForm :=
    {[ "capacityFactorPlotLoadZone" := JNull;
       "capacityFactorPlotStage" := JNull;
       "capacityFactorPlotYMax" := JNull ]};
  capacityFactorPlotJSON := None;
  capacityFactorPlotHTMLName := None;
  scenarioID := JUndefined
|}.

(** ** The world of one page *)

(** The HTML names of the seven plots, as the component holds them. *)
Definition html_names (c : Component) : list (PlotView * option string) :=
  [ (DispatchPlot, dispatchPlotHTMLName c);
    (CapacityNewPlot, capacityNewPlotHTMLName c);
    (CapacityRetiredPlot, capacityRetiredPlotHTMLName c);
    (CapacityTotalPlot, capacityTotalPlotHTMLName c);
    (EnergyPlot, energyPlotHTMLName c);
    (CostPlot, costPlotHTMLName c);
    (CapacityFactorPlot, capacityFactorPlotHTMLName c) ].

(** Modelled from the spec: the selection channel [resultsToViewSubject]
    of scenario-results.service.ts, a behaviour subject: it holds the
    current key, [changeResultsToView] overwrites it and notifies every
    subscriber synchronously, and a new subscriber is handed the current
    key at once. All subscribers are the component's own handler
    [resultsToShow => this.resultsToShow = resultsToShow], so the
    subject keeps their number.

    [route_id] is the number [+params.id] that Angular's route hands to
    its subscribers; [http_log] lists every service call made, in order,
    [in_flight] those whose answer is still awaited, [embedded] the plots
    given to [Bokeh.embed.embed_item]. [names_at_call] keeps, for each
    call of [http_log] and in the same order, the HTML names of the plots
    as the component held them at the moment the call was made: it tells
    whether a name was assigned before a request left or only after. *)
Record World : Type := mkWorld {
  this : Component;
  resultsToViewSubject : string;
  subscribers : nat;
  route_id : Z;
  http_log : list Service.Call;
  in_flight : list Service.Call;
  embedded : list PlotJSON;
  names_at_call : list (list (PlotView * option string))
}.

Definition with_this (f : Component -> Component) (w : World) : World :=
  let '(mkWorld c s n r l p e g) := w in mkWorld (f c) s n r l p e g.

(** The page as entered for the scenario [id], nothing selected. *)
Definition page (id : Z) : World :=
  mkWorld new_component "" 0 id [] [] [] [].

(** ** Statements *)

Definition Stmt : Type := World -> Completion World.

Definition skip : Stmt := Normal.

Definition seq (s1 s2 : Stmt) : Stmt := fun w =>
  match s1 w with
  | Normal w' => s2 w'
  | Throw e => Throw e
  end.

Declare Scope stmt_scope.
Delimit Scope stmt_scope with stmt.
Bind Scope stmt_scope with Stmt.
Notation "s1 ;; s2" := (seq s1 s2)
  (at level 100, s2 at level 200, right associativity) : stmt_scope.
Local Open Scope stmt_scope.

(** [if (cond) { body }] *)
Definition If (cond : World -> bool) (body : Stmt) : Stmt := fun w =>
  if cond w then body w else Normal w.

(** [this.field = value] *)
Definition assign (set : Component -> Component) : Stmt := fun w =>
  Normal (with_this set w).

(** Modelled from the spec: [service.method(args).subscribe(next)]. The
    service's observables are HTTP requests: the request leaves on
    subscription and [next] runs once, on the answer, in a later turn of
    the event loop (see [answer]); nothing cancels it. The HTML names of
    that moment are noted beside the call. *)
Definition http_subscribe (c : Service.Call) : Stmt := fun w =>
  let '(mkWorld t s n r l p e g) := w in
  Normal (mkWorld t s n r (l ++ [c]) (p ++ [c]) e (g ++ [html_names t])).

(** [Bokeh.embed.embed_item(json)] *)
Definition embed_item (json : PlotJSON) : Stmt := fun w =>
  let '(mkWorld t s n r l p e g) := w in
  Normal (mkWorld t s n r l p (e ++ [json]) g).

(** [this.allTables.push(rows)]; a [TypeError] while the array is
    [undefined]. *)
Definition allTables_push (rows : ScenarioResults) : Stmt := fun w =>
  match allTables (this w) with
  | Some tables => assign (set_allTables (Some (tables ++ [rows]))) w
  | None => Throw (TypeError "Cannot read property 'push' of undefined")
  end.

Definition allResultsButtons_push (b : ResultsButton) : Stmt := fun w =>
  match allResultsButtons (this w) with
  | Some buttons =>
      assign (set_allResultsButtons (Some (buttons ++ [b]))) w
  | None => Throw (TypeError "Cannot read property 'push' of undefined")
  end.

Definition allResultsForms_push (f : ResultsForm) : Stmt := fun w =>
  match allResultsForms (this w) with
  | Some forms => assign (set_allResultsForms (Some (forms ++ [f]))) w
  | None => Throw (TypeError "Cannot read property 'push' of undefined")
  end.

(** ** Fetching result tables

    Each [_next] is the handler given to [subscribe]; the value pushed,
    [this.results...], is the [inputTableRows] assigned on the line
    before. *)

Definition getResultsProjectCapacity_next (inputTableRows : ScenarioResults) : Stmt :=
  assign (set_resultsProjectCapacity (Some inputTableRows)) ;;
  allTables_push inputTableRows.

Definition getResultsProjectCapacity (scenarioID : JsVal) : Stmt :=
  http_subscribe (Service.call Service.getResultsProjectCapacity [scenarioID]).

Definition getResultsProjectRetirements_next (inputTableRows : ScenarioResults) : Stmt :=
  assign (set_resultsProjectRetirements (Some inputTableRows)) ;;
  allTables_push inputTableRows.

Definition getResultsProjectRetirements (scenarioID : JsVal) : Stmt :=
  http_subscribe (Service.call Service.getResultsProjectRetirements [scenarioID]).

Definition getResultsProjectNewBuild_next (inputTableRows : ScenarioResults) : Stmt :=
  assign (set_resultsProjectNewBuild (Some inputTableRows)) ;;
  allTables_push inputTableRows.

Definition getResultsProjectNewBuild (scenarioID : JsVal) : Stmt :=
  http_subscribe (Service.call Service.getResultsProjectNewBuild [scenarioID]).

Definition getResultsProjectDispatch_next (inputTableRows : ScenarioResults) : Stmt :=
  assign (set_resultsProjectDispatch (Some inputTableRows)) ;;
  allTables_push inputTableRows.

Definition getResultsProjectDispatch (scenarioID : JsVal) : Stmt :=
  http_subscribe (Service.call Service.getResultsProjectDispatch [scenarioID]).

Definition getResultsProjectCarbon_next (inputTableRows : ScenarioResults) : Stmt :=
  assign (set_resultsProjectCarbon (Some inputTableRows)) ;;
  allTables_push inputTableRows.

Definition getResultsProjectCarbon (scenarioID : JsVal) : Stmt :=
  http_subscribe (Service.call Service.getResultsProjectCarbon [scenarioID]).

Definition getResultsTransmissionCapacity_next (inputTableRows : ScenarioResults) : Stmt :=
  assign (set_resultsTransmissionCapacity (Some inputTableRows)) ;;
  allTables_push inputTableRows.

Definition getResultsTransmissionCapacity (scenarioID : JsVal) : Stmt :=
  http_subscribe (Service.call Service.getResultsTransmissionCapacity [scenarioID]).

Definition getResultsTransmissionFlows_next (inputTableRows : ScenarioResults) : Stmt :=
  assign (set_resultsTransmissionFlows (Some inputTableRows)) ;;
  allTables_push inputTableRows.

Definition getResultsTransmissionFlows (scenarioID : JsVal) : Stmt :=
  http_subscribe (Service.call Service.getResultsTransmissionFlows [scenarioID]).

Definition getResultsImportsExports_next (inputTableRows : ScenarioResults) : Stmt :=
  assign (set_resultsImportsExports (Some inputTableRows)) ;;
  allTables_push inputTableRows.

Definition getResultsImportsExports (scenarioID : JsVal) : Stmt :=
  http_subscribe (Service.call Service.getResultsImportsExports [scenarioID]).

Definition getResultsSystemLoadBalance_next (inputTableRows : ScenarioResults) : Stmt :=
  assign (set_resultsSystemLoadBalance (Some inputTableRows)) ;;
  allTables_push inputTableRows.

Definition getResultsSystemLoadBalance (scenarioID : JsVal) : Stmt :=
  http_subscribe (Service.call Service.getResultsSystemLoadBalance [scenarioID]).

Definition getResultsSystemRPS_next (inputTableRows : ScenarioResults) : Stmt :=
  assign (set_resultsSystemRPS (Some inputTableRows)) ;;
  allTables_push inputTableRows.

Definition getResultsSystemRPS (scenarioID : JsVal) : Stmt :=
  http_subscribe (Service.call Service.getResultsSystemRPS [scenarioID]).

Definition getResultsSystemCarbonCap_next (inputTableRows : ScenarioResults) : Stmt :=
  assign (set_resultsSystemCarbonCap (Some inputTableRows)) ;;
  allTables_push inputTableRows.

Definition getResultsSystemCarbonCap (scenarioID : JsVal) : Stmt :=
  http_subscribe (Service.call Service.getResultsSystemCarbonCap [scenarioID]).

Definition getResultsSystemPRM_next (inputTableRows : ScenarioResults) : Stmt :=
  assign (set_resultsSystemPRM (Some inputTableRows)) ;;
  allTables_push inputTableRows.

Definition getResultsSystemPRM (scenarioID : JsVal) : Stmt :=
  http_subscribe (Service.call Service.getResultsSystemPRM [scenarioID]).
(** ** Fetching plots

    The statements keep the order of the source: the form is read, a
    [null] y-axis maximum becomes ['default'], the HTML name is assigned,
    and the request is made. *)

Definition getResultsDispatchPlot_next (dispatchPlotAPI : PlotAPI) : Stmt :=
  assign (set_dispatchPlotJSON (Some (plotJSON dispatchPlotAPI))) ;;
  embed_item (plotJSON dispatchPlotAPI).

Definition getResultsDispatchPlot (scenarioID : JsVal) : Stmt := fun w =>
  let loadZone :=
    form_value (dispatchPlotOptionsForm (this w)) "dispatchPlotLoadZone" in
  let horizon :=
    form_value (dispatchPlotOptionsForm (this w)) "dispatchPlotHorizon" in
  let yMax :=
    form_value (dispatchPlotOptionsForm (this w)) "dispatchPlotYMax" in
  let yMax := if is_null yMax then JStr "default" else yMax in
  (assign (set_dispatchPlotHTMLName (Some
     ("dispatchPlot-" +:+ to_js_string loadZone +:+ "-"
        +:+ to_js_string horizon))) ;;
   http_subscribe (Service.call Service.getResultsDispatchPlot
     [scenarioID; loadZone; horizon; yMax])) w.

Definition getResultsCapacityNewPlot_next (plotAPI : PlotAPI) : Stmt :=
  assign (set_capacityNewPlotJSON (Some (plotJSON plotAPI))) ;;
  embed_item (plotJSON plotAPI).

Definition getResultsCapacityNewPlot (scenarioID : JsVal) : Stmt := fun w =>
  let loadZone :=
    form_value (capacityNewPlotOptionsForm (this w))
      "capacityNewPlotLoadZone" in
  (assign (set_capacityNewPlotHTMLName (Some
     ("newCapacityPlot-" +:+ to_js_string loadZone))) ;;
   (fun w =>
      let yMax :=
        form_value (capacityNewPlotOptionsForm (this w))
          "capacityNewPlotYMax" in
      let yMax := if is_null yMax then JStr "default" else yMax in
      http_subscribe (Service.call Service.getResultsCapacityNewPlot
        [scenarioID; loadZone; yMax]) w)) w.

Definition getResultsCapacityRetiredPlot_next (plotAPI : PlotAPI) : Stmt :=
  assign (set_capacityRetiredPlotJSON (Some (plotJSON plotAPI))) ;;
  embed_item (plotJSON plotAPI).

Definition getResultsCapacityRetiredPlot (scenarioID : JsVal) : Stmt :=
  fun w =>
  let loadZone :=
    form_value (capacityRetiredPlotOptionsForm (this w))
      "capacityRetiredPlotLoadZone" in
  let yMax :=
    form_value (capacityRetiredPlotOptionsForm (this w))
      "capacityRetiredPlotYMax" in
  let yMax := if is_null yMax then JStr "default" else yMax in
  (assign (set_capacityRetiredPlotHTMLName (Some
     ("retiredCapacityPlot-" +:+ to_js_string loadZone))) ;;
   http_subscribe (Service.call Service.getResultsCapacityRetiredPlot
     [scenarioID; loadZone; yMax])) w.

Definition getResultsCapacityTotalPlot_next (plotAPI : PlotAPI) : Stmt :=
  assign (set_capacityTotalPlotJSON (Some (plotJSON plotAPI))) ;;
  embed_item (plotJSON plotAPI).

Definition getResultsCapacityTotalPlot (scenarioID : JsVal) : Stmt :=
  fun w =>
  let loadZone :=
    form_value (capacityTotalPlotOptionsForm (this w))
      "capacityTotalPlotLoadZone" in
  let yMax :=
    form_value (capacityTotalPlotOptionsForm (this w))
      "capacityTotalPlotYMax" in
  let yMax := if is_null yMax then JStr "default" else yMax in
  (assign (set_capacityTotalPlotHTMLName (Some
     ("allCapacityPlot-" +:+ to_js_string loadZone))) ;;
   http_subscribe (Service.call Service.getResultsCapacityTotalPlot
     [scenarioID; loadZone; yMax])) w.

Definition getResultsEnergyPlot_next (energyPlotAPI : PlotAPI) : Stmt :=
  assign (set_energyPlotJSON (Some (plotJSON energyPlotAPI))) ;;
  embed_item (plotJSON energyPlotAPI).

Definition getResultsEnergyPlot (scenarioID : JsVal) : Stmt := fun w =>
  let loadZone :=
    form_value (energyPlotOptionsForm (this w)) "energyPlotLoadZone" in
  let stage :=
    form_value (energyPlotOptionsForm (this w)) "energyPlotStage" in
  let yMax :=
    form_value (energyPlotOptionsForm (this w)) "energyPlotYMax" in
  let yMax := if is_null yMax then JStr "default" else yMax in
  (assign (set_energyPlotHTMLName (Some
     ("EnergyPlot-" +:+ to_js_string loadZone +:+ "-"
        +:+ to_js_string stage))) ;;
   http_subscribe (Service.call Service.getResultsEnergyPlot
     [scenarioID; loadZone; stage; yMax])) w.

Definition getResultsCostPlot_next (costPlotAPI : PlotAPI) : Stmt :=
  assign (set_costPlotJSON (Some (plotJSON costPlotAPI))) ;;
  embed_item (plotJSON costPlotAPI).

Definition getResultsCostPlot (scenarioID : JsVal) : Stmt := fun w =>
  let loadZone :=
    form_value (costPlotOptionsForm (this w)) "costPlotLoadZone" in
  let stage :=
    form_value (costPlotOptionsForm (this w)) "costPlotStage" in
  let yMax :=
    form_value (costPlotOptionsForm (this w)) "costPlotYMax" in
  let yMax := if is_null yMax then JStr "default" else yMax in
  (assign (set_costPlotHTMLName (Some
     ("CostPlot-" +:+ to_js_string loadZone +:+ "-"
        +:+ to_js_string stage))) ;;
   http_subscribe (Service.call Service.getResultsCostPlot
     [scenarioID; loadZone; stage; yMax])) w.

Definition getResultsCapacityFactorPlot_next
    (capacityFactorPlotAPI : PlotAPI) : Stmt :=
  assign (set_capacityFactorPlotJSON (Some (plotJSON capacityFactorPlotAPI))) ;;
  embed_item (plotJSON capacityFactorPlotAPI).

Definition getResultsCapacityFactorPlot (scenarioID : JsVal) : Stmt :=
  fun w =>
  let loadZone :=
    form_value (capacityFactorPlotOptionsForm (this w))
      "capacityFactorPlotLoadZone" in
  let stage :=
    form_value (capacityFactorPlotOptionsForm (this w))
      "capacityFactorPlotStage" in
  let yMax :=
    form_value (capacityFactorPlotOptionsForm (this w))
      "capacityFactorPlotYMax" in
  let yMax := if is_null yMax then JStr "default" else yMax in
  (assign (set_capacityFactorPlotHTMLName (Some
     ("CapFactorPlot-" +:+ to_js_string loadZone +:+ "-"
        +:+ to_js_string stage))) ;;
   http_subscribe (Service.call Service.getResultsCapacityFactorPlot
     [scenarioID; loadZone; stage; yMax])) w.

(** ** Buttons and forms *)

Definition makeResultsButtons : Stmt :=
  allResultsButtons_push
    {| name := "showResultsProjectCapacityButton";
       ngIfKey := "results-project-capacity";
       caption := "Project Capacity" |} ;;
  allResultsButtons_push
    {| name := "showResultsProjectRetirementsButton";
       ngIfKey := "results-project-retirements";
       caption := "Project Retirements" |} ;;
  allResultsButtons_push
    {| name := "showResultsProjectNewBuildButton";
       ngIfKey := "results-project-new-build";
       caption := "Project New Build" |} ;;
  allResultsButtons_push
    {| name := "showResultsProjectDispatchButton";
       ngIfKey := "results-project-dispatch";
       caption := "Project Dispatch" |} ;;
  allResultsButtons_push
    {| name := "showResultsProjectCarbonButton";
       ngIfKey := "results-project-carbon";
       caption := "Project Carbon" |} ;;
  allResultsButtons_push
    {| name := "showResultsTransmissionCapacityButton";
       ngIfKey := "results-transmission-capacity";
       caption := "Transmission Capacity" |} ;;
  allResultsButtons_push
    {| name := "showResultsTransmissionFlowsButton";
       ngIfKey := "results-transmission-flows";
       caption := "Transmission Flows" |} ;;
  allResultsButtons_push
    {| name := "showResultsImportsExportsButton";
       ngIfKey := "results-imports-exports";
       caption := "Imports/Exports" |} ;;
  allResultsButtons_push
    {| name := "showResultsSystemLoadBalanceButton";
       ngIfKey := "results-system-load-balance";
       caption := "Load Balance" |} ;;
  allResultsButtons_push
    {| name := "showResultsSystemRPSButton";
       ngIfKey := "results-system-rps";
       caption := "RPS" |} ;;
  allResultsButtons_push
    {| name := "showResultsSystemCarbonCapButton";
       ngIfKey := "results-system-carbon-cap";
       caption := "Carbon Cap" |} ;;
  allResultsButtons_push
    {| name := "showResultsSystemPRMButton";
       ngIfKey := "results-system-prm";
       caption := "PRM" |}.

(** The handler of [getOptions(scenarioID).subscribe]. *)
Definition makeResultsForms_next (plotOptions : Service.PlotOptions) : Stmt :=
  allResultsForms_push
    {| formGroup := DispatchPlot;
       selectForms :=
         [ {| formControlName := "dispatchPlotLoadZone";
              formControlOptions := Service.loadZoneOptions plotOptions |};
           {| formControlName := "dispatchPlotHorizon";
              formControlOptions := Service.horizonOptions plotOptions |} ];
       yMaxFormControlName := "dispatchPlotYMax";
       button := {| name := "showResultsDispatchPlotButton";
                    ngIfKey := "results-dispatch-plot";
                    caption := "System Dispatch" |} |} ;;
  allResultsForms_push
    {| formGroup := CapacityNewPlot;
       selectForms :=
         [ {| formControlName := "capacityNewPlotLoadZone";
              formControlOptions := Service.loadZoneOptions plotOptions |} ];
       yMaxFormControlName := "capacityNewPlotYMax";
       button := {| name := "showResultsCapacityNewPlotButton";
                    ngIfKey := "results-capacity-new-plot";
                    caption := "New Capacity" |} |} ;;
  allResultsForms_push
    {| formGroup := CapacityRetiredPlot;
       selectForms :=
         [ {| formControlName := "capacityRetiredPlotLoadZone";
              formControlOptions := Service.loadZoneOptions plotOptions |} ];
       yMaxFormControlName := "capacityRetiredPlotYMax";
       button := {| name := "showResultsCapacityRetiredPlotButton";
                    ngIfKey := "results-capacity-retired-plot";
                    caption := "Retired Capacity" |} |} ;;
  allResultsForms_push
    {| formGroup := CapacityTotalPlot;
       selectForms :=
         [ {| formControlName := "capacityTotalPlotLoadZone";
              formControlOptions := Service.loadZoneOptions plotOptions |} ];
       yMaxFormControlName := "capacityTotalPlotYMax";
       button := {| name := "showResultsCapacityTotalPlotButton";
                    ngIfKey := "results-capacity-total-plot";
                    caption := "Total Capacity" |} |} ;;
  allResultsForms_push
    {| formGroup := EnergyPlot;
       selectForms :=
         [ {| formControlName := "energyPlotLoadZone";
              formControlOptions := Service.loadZoneOptions plotOptions |};
           {| formControlName := "energyPlotStage";
              formControlOptions := Service.stageOptions plotOptions |} ];
       yMaxFormControlName := "energyPlotYMax";
       button := {| name := "showResultsEnergyPlotButton";
                    ngIfKey := "results-energy-plot";
                    caption := "System Energy Mix" |} |} ;;
  allResultsForms_push
    {| formGroup := CostPlot;
       selectForms :=
         [ {| formControlName := "costPlotLoadZone";
              formControlOptions := Service.loadZoneOptions plotOptions |};
           {| formControlName := "costPlotStage";
              formControlOptions := Service.stageOptions plotOptions |} ];
       yMaxFormControlName := "costPlotYMax";
       button := {| name := "showResultsCostPlotButton";
                    ngIfKey := "results-cost-plot";
                    caption := "System Cost" |} |} ;;
  allResultsForms_push
    {| formGroup := CapacityFactorPlot;
       selectForms :=
         [ {| formControlName := "capacityFactorPlotLoadZone";
              formControlOptions := Service.loadZoneOptions plotOptions |};
           {| formControlName := "capacityFactorPlotStage";
              formControlOptions := Service.stageOptions plotOptions |} ];
       yMaxFormControlName := "capacityFactorPlotYMax";
       button := {| name := "showResultsCapacityFactorPlotButton";
                    ngIfKey := "results-capacity-factor-plot";
                    caption := "Capacity Factors" |} |}.

Definition makeResultsForms (scenarioID : JsVal) : Stmt :=
  http_subscribe (Service.call Service.getOptions [scenarioID]).

(** ** Selection and initialisation *)

(** [this.route.params.subscribe(params => this.scenarioID = +params.id)]:
    the route hands its parameters to the subscriber at once. *)
Definition route_params_subscribe : Stmt := fun w =>
  assign (set_scenarioID (JNum (route_id w))) w.

(** The subscriber of [getResultsToShow]. *)
Definition getResultsToShow_next (key : string) : Stmt :=
  assign (set_resultsToShow (Some key)).

(** [resultsToViewSubject.subscribe(...)]: one more subscriber, run at
    once on the current key. *)
Definition getResultsToShow : Stmt := fun w =>
  let '(mkWorld t s n r l p e g) := w in
  getResultsToShow_next s (mkWorld t s (S n) r l p e g).

(** [n] subscribers run in turn. *)
Fixpoint notify (n : nat) (key : string) : Stmt :=
  match n with
  | O => skip
  | S n' => getResultsToShow_next key ;; notify n' key
  end.

(** Modelled from the spec: [changeResultsToView] of the service, the
    [next] of the behaviour subject. *)
Definition changeResultsToView (key : string) : Stmt := fun w =>
  let '(mkWorld t _ n r l p e g) := w in
  notify n key (mkWorld t key n r l p e g).

(** [this.resultsToShow === key] and [this.scenarioID], read where the
    statement runs. *)
Definition showing (key : string) (w : World) : bool :=
  strict_eq (resultsToShow (this w)) key.

Definition on_scenario (method : JsVal -> Stmt) : Stmt := fun w =>
  method (scenarioID (this w)) w.

(** [ngOnInit], statement by statement; the [console.log] calls are left
    out and the subscription handle [this.sub] is kept nowhere, as nothing
    reads it. *)
Definition ngOnInit : Stmt :=
  route_params_subscribe ;;
  assign (set_allResultsButtons (Some [])) ;;
  assign (set_allResultsForms (Some [])) ;;
  makeResultsButtons ;;
  on_scenario makeResultsForms ;;
  assign (set_allTables (Some [])) ;;
  getResultsToShow ;;
  If (showing "results-project-capacity")
    (on_scenario getResultsProjectCapacity) ;;
  If (showing "results-project-retirements")
    (on_scenario getResultsProjectRetirements) ;;
  If (showing "results-project-new-build")
    (on_scenario getResultsProjectNewBuild) ;;
  If (showing "results-project-dispatch")
    (on_scenario getResultsProjectDispatch) ;;
  If (showing "results-project-carbon")
    (on_scenario getResultsProjectCarbon) ;;
  If (showing "results-transmission-capacity")
    (on_scenario getResultsTransmissionCapacity) ;;
  If (showing "results-transmission-flows")
    (on_scenario getResultsTransmissionFlows) ;;
  If (showing "results-imports-exports")
    (on_scenario getResultsImportsExports) ;;
  If (showing "results-system-load-balance")
    (on_scenario getResultsSystemLoadBalance) ;;
  If (showing "results-system-rps")
    (on_scenario getResultsSystemRPS) ;;
  If (showing "results-system-carbon-cap")
    (on_scenario getResultsSystemCarbonCap) ;;
  If (showing "results-system-prm")
    (on_scenario getResultsSystemPRM) ;;
  If (showing "results-dispatch-plot")
    (on_scenario getResultsDispatchPlot) ;;
  If (showing "results-capacity-new-plot")
    (on_scenario getResultsCapacityNewPlot) ;;
  If (showing "results-capacity-retired-plot")
    (on_scenario getResultsCapacityRetiredPlot) ;;
  If (showing "results-capacity-total-plot")
    (on_scenario getResultsCapacityTotalPlot) ;;
  If (showing "results-energy-plot")
    (on_scenario getResultsEnergyPlot) ;;
  If (showing "results-cost-plot")
    (on_scenario getResultsCostPlot) ;;
  If (showing "results-capacity-factor-plot")
    (on_scenario getResultsCapacityFactorPlot).

(** A results button is pressed: the key is published, then the view is
    refreshed by running [ngOnInit] again. *)
Definition showResults (resultsToShow : string) : Stmt :=
  changeResultsToView resultsToShow ;;
  ngOnInit.

(** [this.location.back()] leaves the page; the selection is emptied. *)
Definition goBack : Stmt :=
  changeResultsToView "".

(** ** Answers and the event loop *)

(** What a request is answered with: rows for a table method, a plot for
    a plot method, the option lists for [getOptions]. *)
Inductive Response : Type :=
  | Rows (rows : ScenarioResults)
  | Plot (api : PlotAPI)
  | Options (plotOptions : Service.PlotOptions).

(** The handler subscribed to a method's observable, run on its answer;
    an answer of the wrong shape is never delivered. *)
Definition next (m : Service.Method) (r : Response) : Stmt :=
  match m, r with
  | Service.getOptions, Options o => makeResultsForms_next o
  | Service.getResultsProjectCapacity, Rows t =>
      getResultsProjectCapacity_next t
  | Service.getResultsProjectRetirements, Rows t =>
      getResultsProjectRetirements_next t
  | Service.getResultsProjectNewBuild, Rows t =>
      getResultsProjectNewBuild_next t
  | Service.getResultsProjectDispatch, Rows t =>
      getResultsProjectDispatch_next t
  | Service.getResultsProjectCarbon, Rows t =>
      getResultsProjectCarbon_next t
  | Service.getResultsTransmissionCapacity, Rows t =>
      getResultsTransmissionCapacity_next t
  | Service.getResultsTransmissionFlows, Rows t =>
      getResultsTransmissionFlows_next t
  | Service.getResultsImportsExports, Rows t =>
      getResultsImportsExports_next t
  | Service.getResultsSystemLoadBalance, Rows t =>
      getResultsSystemLoadBalance_next t
  | Service.getResultsSystemRPS, Rows t => getResultsSystemRPS_next t
  | Service.getResultsSystemCarbonCap, Rows t =>
      getResultsSystemCarbonCap_next t
  | Service.getResultsSystemPRM, Rows t => getResultsSystemPRM_next t
  | Service.getResultsDispatchPlot, Plot p => getResultsDispatchPlot_next p
  | Service.getResultsCapacityNewPlot, Plot p =>
      getResultsCapacityNewPlot_next p
  | Service.getResultsCapacityRetiredPlot, Plot p =>
      getResultsCapacityRetiredPlot_next p
  | Service.getResultsCapacityTotalPlot, Plot p =>
      getResultsCapacityTotalPlot_next p
  | Service.getResultsEnergyPlot, Plot p => getResultsEnergyPlot_next p
  | Service.getResultsCostPlot, Plot p => getResultsCostPlot_next p
  | Service.getResultsCapacityFactorPlot, Plot p =>
      getResultsCapacityFactorPlot_next p
  | _, _ => skip
  end.

(** The request at position [i] among those in flight is answered: it is
    in flight no longer and its handler runs. *)
Definition answer (i : nat) (r : Response) : Stmt := fun w =>
  match in_flight w !! i with
  | Some c =>
      let '(mkWorld t s n rt l p e g) := w in
      next (Service.method c) r (mkWorld t s n rt l (delete i p) e g)
  | None => Normal w
  end.

(** The form group of a plot view, and the user's choice of a value for
    one of its controls. *)
Definition plot_form (p : PlotView) (c : Component) : gmap string JsVal :=
  match p with
  | DispatchPlot => dispatchPlotOptionsForm c
  | CapacityNewPlot => capacityNewPlotOptionsForm c
  | CapacityRetiredPlot => capacityRetiredPlotOptionsForm c
  | CapacityTotalPlot => capacityTotalPlotOptionsForm c
  | EnergyPlot => energyPlotOptionsForm c
  | CostPlot => costPlotOptionsForm c
  | CapacityFactorPlot => capacityFactorPlotOptionsForm c
  end.

Definition set_plot_form (p : PlotView) (f : gmap string JsVal)
    (c : Component) : Component :=
  match p with
  | DispatchPlot => set_dispatchPlotOptionsForm f c
  | CapacityNewPlot => set_capacityNewPlotOptionsForm f c
  | CapacityRetiredPlot => set_capacityRetiredPlotOptionsForm f c
  | CapacityTotalPlot => set_capacityTotalPlotOptionsForm f c
  | EnergyPlot => set_energyPlotOptionsForm f c
  | CostPlot => set_costPlotOptionsForm f c
  | CapacityFactorPlot => set_capacityFactorPlotOptionsForm f c
  end.

Definition setValue (p : PlotView) (control : string) (v : JsVal) : Stmt :=
  fun w =>
  match plot_form p (this w) !! control with
  | Some _ =>
      assign (set_plot_form p (<[control := v]> (plot_form p (this w)))) w
  | None => Normal w
  end.

(** What happens to a page: Angular initialises the component, the user
    presses a results button, chooses a form value or goes back, a
    request is answered. *)
Inductive Event : Type :=
  | Init
  | Press (key : string)
  | Choose (p : PlotView) (control : string) (v : JsVal)
  | Leave
  | Answer (i : nat) (r : Response).

Definition handle (ev : Event) : Stmt :=
  match ev with
  | Init => ngOnInit
  | Press key => showResults key
  | Choose p control v => setValue p control v
  | Leave => goBack
  | Answer i r => answer i r
  end.

Fixpoint run (evs : list Event) : Stmt :=
  match evs with
  | [] => skip
  | ev :: evs' => handle ev ;; run evs'
  end.

(** ** The views, as the source pairs keys, fields and methods *)

Definition plot_key (p : PlotView) : string :=
  match p with
  | DispatchPlot => "results-dispatch-plot"
  | CapacityNewPlot => "results-capacity-new-plot"
  | CapacityRetiredPlot => "results-capacity-retired-plot"
  | CapacityTotalPlot => "results-capacity-total-plot"
  | EnergyPlot => "results-energy-plot"
  | CostPlot => "results-cost-plot"
  | CapacityFactorPlot => "results-capacity-factor-plot"
  end.

Definition plot_method (p : PlotView) : Service.Method :=
  match p with
  | DispatchPlot => Service.getResultsDispatchPlot
  | CapacityNewPlot => Service.getResultsCapacityNewPlot
  | CapacityRetiredPlot => Service.getResultsCapacityRetiredPlot
  | CapacityTotalPlot => Service.getResultsCapacityTotalPlot
  | EnergyPlot => Service.getResultsEnergyPlot
  | CostPlot => Service.getResultsCostPlot
  | CapacityFactorPlot => Service.getResultsCapacityFactorPlot
  end.

Definition plot_HTMLName (p : PlotView) (c : Component) : option string :=
  match p with
  | DispatchPlot => dispatchPlotHTMLName c
  | CapacityNewPlot => capacityNewPlotHTMLName c
  | CapacityRetiredPlot => capacityRetiredPlotHTMLName c
  | CapacityTotalPlot => capacityTotalPlotHTMLName c
  | EnergyPlot => energyPlotHTMLName c
  | CostPlot => costPlotHTMLName c
  | CapacityFactorPlot => capacityFactorPlotHTMLName c
  end.

Definition plot_JSON (p : PlotView) (c : Component) : option PlotJSON :=
  match p with
  | DispatchPlot => dispatchPlotJSON c
  | CapacityNewPlot => capacityNewPlotJSON c
  | CapacityRetiredPlot => capacityRetiredPlotJSON c
  | CapacityTotalPlot => capacityTotalPlotJSON c
  | EnergyPlot => energyPlotJSON c
  | CostPlot => costPlotJSON c
  | CapacityFactorPlot => capacityFactorPlotJSON c
  end.

(** The select controls of a plot's form (load zone, then horizon or
    stage where the plot has one) and its y-axis-maximum control. *)
Definition select_controls (p : PlotView) : list string :=
  match p with
  | DispatchPlot => ["dispatchPlotLoadZone"; "dispatchPlotHorizon"]
  | CapacityNewPlot => ["capacityNewPlotLoadZone"]
  | CapacityRetiredPlot => ["capacityRetiredPlotLoadZone"]
  | CapacityTotalPlot => ["capacityTotalPlotLoadZone"]
  | EnergyPlot => ["energyPlotLoadZone"; "energyPlotStage"]
  | CostPlot => ["costPlotLoadZone"; "costPlotStage"]
  | CapacityFactorPlot =>
      ["capacityFactorPlotLoadZone"; "capacityFactorPlotStage"]
  end.

Definition yMax_control (p : PlotView) : string :=
  match p with
  | DispatchPlot => "dispatchPlotYMax"
  | CapacityNewPlot => "capacityNewPlotYMax"
  | CapacityRetiredPlot => "capacityRetiredPlotYMax"
  | CapacityTotalPlot => "capacityTotalPlotYMax"
  | EnergyPlot => "energyPlotYMax"
  | CostPlot => "costPlotYMax"
  | CapacityFactorPlot => "capacityFactorPlotYMax"
  end.

Definition table_key (t : TableView) : string :=
  match t with
  | ProjectCapacity => "results-project-capacity"
  | ProjectRetirements => "results-project-retirements"
  | ProjectNewBuild => "results-project-new-build"
  | ProjectDispatch => "results-project-dispatch"
  | ProjectCarbon => "results-project-carbon"
  | TransmissionCapacity => "results-transmission-capacity"
  | TransmissionFlows => "results-transmission-flows"
  | ImportsExports => "results-imports-exports"
  | SystemLoadBalance => "results-system-load-balance"
  | SystemRPS => "results-system-rps"
  | SystemCarbonCap => "results-system-carbon-cap"
  | SystemPRM => "results-system-prm"
  end.

Definition table_method (t : TableView) : Service.Method :=
  match t with
  | ProjectCapacity => Service.getResultsProjectCapacity
  | ProjectRetirements => Service.getResultsProjectRetirements
  | ProjectNewBuild => Service.getResultsProjectNewBuild
  | ProjectDispatch => Service.getResultsProjectDispatch
  | ProjectCarbon => Service.getResultsProjectCarbon
  | TransmissionCapacity => Service.getResultsTransmissionCapacity
  | TransmissionFlows => Service.getResultsTransmissionFlows
  | ImportsExports => Service.getResultsImportsExports
  | SystemLoadBalance => Service.getResultsSystemLoadBalance
  | SystemRPS => Service.getResultsSystemRPS
  | SystemCarbonCap => Service.getResultsSystemCarbonCap
  | SystemPRM => Service.getResultsSystemPRM
  end.

Definition table_result (t : TableView) (c : Component)
    : option ScenarioResults :=
  match t with
  | ProjectCapacity => resultsProjectCapacity c
  | ProjectRetirements => resultsProjectRetirements c
  | ProjectNewBuild => resultsProjectNewBuild c
  | ProjectDispatch => resultsProjectDispatch c
  | ProjectCarbon => resultsProjectCarbon c
  | TransmissionCapacity => resultsTransmissionCapacity c
  | TransmissionFlows => resultsTransmissionFlows c
  | ImportsExports => resultsImportsExports c
  | SystemLoadBalance => resultsSystemLoadBalance c
  | SystemRPS => resultsSystemRPS c
  | SystemCarbonCap => resultsSystemCarbonCap c
  | SystemPRM => resultsSystemPRM c
  end.

(** A view is a table or a plot; [resolve] is the dispatch of
    [ngOnInit] on the key, read as a function. *)
Inductive View : Type :=
  | Table (t : TableView)
  | APlot (p : PlotView).

Definition view_key (v : View) : string :=
  match v with Table t => table_key t | APlot p => plot_key p end.

Definition view_method (v : View) : Service.Method :=
  match v with Table t => table_method t | APlot p => plot_method p end.

Definition resolve (key : string) : option View :=
  if String.eqb key "results-project-capacity"
  then Some (Table ProjectCapacity)
  else if String.eqb key "results-project-retirements"
  then Some (Table ProjectRetirements)
  else if String.eqb key "results-project-new-build"
  then Some (Table ProjectNewBuild)
  else if String.eqb key "results-project-dispatch"
  then Some (Table ProjectDispatch)
  else if String.eqb key "results-project-carbon"
  then Some (Table ProjectCarbon)
  else if String.eqb key "results-transmission-capacity"
  then Some (Table TransmissionCapacity)
  else if String.eqb key "results-transmission-flows"
  then Some (Table TransmissionFlows)
  else if String.eqb key "results-imports-exports"
  then Some (Table ImportsExports)
  else if String.eqb key "results-system-load-balance"
  then Some (Table SystemLoadBalance)
  else if String.eqb key "results-system-rps"
  then Some (Table SystemRPS)
  else if String.eqb key "results-system-carbon-cap"
  then Some (Table SystemCarbonCap)
  else if String.eqb key "results-system-prm"
  then Some (Table SystemPRM)
  else if String.eqb key "results-dispatch-plot"
  then Some (APlot DispatchPlot)
  else if String.eqb key "results-capacity-new-plot"
  then Some (APlot CapacityNewPlot)
  else if String.eqb key "results-capacity-retired-plot"
  then Some (APlot CapacityRetiredPlot)
  else if String.eqb key "results-capacity-total-plot"
  then Some (APlot CapacityTotalPlot)
  else if String.eqb key "results-energy-plot"
  then Some (APlot EnergyPlot)
  else if String.eqb key "results-cost-plot"
  then Some (APlot CostPlot)
  else if String.eqb key "results-capacity-factor-plot"
  then Some (APlot CapacityFactorPlot)
  else None.

(** The component method that fetches a view. *)
Definition fetch (v : View) : JsVal -> Stmt :=
  match v with
  | Table ProjectCapacity => getResultsProjectCapacity
  | Table ProjectRetirements => getResultsProjectRetirements
  | Table ProjectNewBuild => getResultsProjectNewBuild
  | Table ProjectDispatch => getResultsProjectDispatch
  | Table ProjectCarbon => getResultsProjectCarbon
  | Table TransmissionCapacity => getResultsTransmissionCapacity
  | Table TransmissionFlows => getResultsTransmissionFlows
  | Table ImportsExports => getResultsImportsExports
  | Table SystemLoadBalance => getResultsSystemLoadBalance
  | Table SystemRPS => getResultsSystemRPS
  | Table SystemCarbonCap => getResultsSystemCarbonCap
  | Table SystemPRM => getResultsSystemPRM
  | APlot DispatchPlot => getResultsDispatchPlot
  | APlot CapacityNewPlot => getResultsCapacityNewPlot
  | APlot CapacityRetiredPlot => getResultsCapacityRetiredPlot
  | APlot CapacityTotalPlot => getResultsCapacityTotalPlot
  | APlot EnergyPlot => getResultsEnergyPlot
  | APlot CostPlot => getResultsCostPlot
  | APlot CapacityFactorPlot => getResultsCapacityFactorPlot
  end.

(** What the component stores for a view. *)
Inductive Stored : Type :=
  | StoredRows (rows : option ScenarioResults)
  | StoredPlot (json : option PlotJSON) (htmlName : option string).

Definition stored (v : View) (c : Component) : Stored :=
  match v with
  | Table t => StoredRows (table_result t c)
  | APlot p => StoredPlot (plot_JSON p c) (plot_HTMLName p c)
  end.

(** ** Outcomes *)

(** The statement completes normally, in a world where [post] holds. *)
Definition after (c : Completion World) (post : World -> Prop) : Prop :=
  match c with
  | Normal w => post w
  | Throw _ => False
  end.

(** The first statements of [ngOnInit], up to the subscription to the
    selection, and the dispatch that follows them. *)
Definition ngOnInit_setup : Stmt :=
  route_params_subscribe ;;
  assign (set_allResultsButtons (Some [])) ;;
  assign (set_allResultsForms (Some [])) ;;
  makeResultsButtons ;;
  on_scenario makeResultsForms ;;
  assign (set_allTables (Some [])) ;;
  getResultsToShow.

(** The dispatch of [ngOnInit] on the key, through [resolve]. *)
Definition get_data (key : string) : Stmt :=
  match resolve key with
  | Some v => on_scenario (fetch v)
  | None => skip
  end.

(** The subject holds [key]. *)
Definition select (key : string) (w : World) : World :=
  let '(mkWorld t _ n r l p e g) := w in mkWorld t key n r l p e g.

(** ** Render target names and calls, as functions of the form *)

(** The HTML name each plot method assigns. *)
Definition render_target_name (p : PlotView) (form : gmap string JsVal)
    : string :=
  match p with
  | DispatchPlot =>
      "dispatchPlot-" +:+ to_js_string (form_value form "dispatchPlotLoadZone")
        +:+ "-" +:+ to_js_string (form_value form "dispatchPlotHorizon")
  | CapacityNewPlot =>
      "newCapacityPlot-"
        +:+ to_js_string (form_value form "capacityNewPlotLoadZone")
  | CapacityRetiredPlot =>
      "retiredCapacityPlot-"
        +:+ to_js_string (form_value form "capacityRetiredPlotLoadZone")
  | CapacityTotalPlot =>
      "allCapacityPlot-"
        +:+ to_js_string (form_value form "capacityTotalPlotLoadZone")
  | EnergyPlot =>
      "EnergyPlot-" +:+ to_js_string (form_value form "energyPlotLoadZone")
        +:+ "-" +:+ to_js_string (form_value form "energyPlotStage")
  | CostPlot =>
      "CostPlot-" +:+ to_js_string (form_value form "costPlotLoadZone")
        +:+ "-" +:+ to_js_string (form_value form "costPlotStage")
  | CapacityFactorPlot =>
      "CapFactorPlot-"
        +:+ to_js_string (form_value form "capacityFactorPlotLoadZone")
        +:+ "-" +:+ to_js_string (form_value form "capacityFactorPlotStage")
  end.

Definition set_plot_HTMLName (p : PlotView) (v : option string)
    (c : Component) : Component :=
  match p with
  | DispatchPlot => set_dispatchPlotHTMLName v c
  | CapacityNewPlot => set_capacityNewPlotHTMLName v c
  | CapacityRetiredPlot => set_capacityRetiredPlotHTMLName v c
  | CapacityTotalPlot => set_capacityTotalPlotHTMLName v c
  | EnergyPlot => set_energyPlotHTMLName v c
  | CostPlot => set_costPlotHTMLName v c
  | CapacityFactorPlot => set_capacityFactorPlotHTMLName v c
  end.

(** The request [ngOnInit] makes for the option lists, and the one a plot
    method makes: scenario, select values in order, y-axis maximum. *)
Definition options_call (w : World) : Service.Call :=
  Service.call Service.getOptions [JNum (route_id w)].

Definition yMax_argument (yMax : JsVal) : JsVal :=
  if is_null yMax then JStr "default" else yMax.

Definition plot_call (p : PlotView) (scenarioID : JsVal)
    (form : gmap string JsVal) : Service.Call :=
  Service.call (plot_method p)
    (scenarioID :: (form_value form <$> select_controls p)
       ++ [yMax_argument (form_value form (yMax_control p))]).

(** ** Sessions *)

(** The arrays that handlers push to exist: [ngOnInit] has run. *)
Definition initialised (w : World) : Prop :=
  is_Some (allTables (this w)) ∧ is_Some (allResultsForms (this w)).

Definition is_getOptions (c : Service.Call) : bool :=
  match Service.method c with Service.getOptions => true | _ => false end.

(** The calls of [getOptions] made so far. *)
Definition options_calls (w : World) : list Service.Call :=
  List.filter is_getOptions (http_log w).

(** The events that run [ngOnInit]. *)
Definition refreshes (ev : Event) : bool :=
  match ev with Init | Press _ => true | _ => false end.

(** The world in which the request at position [i] has been answered. *)
Definition landed (i : nat) (w : World) : World :=
  let '(mkWorld t s n r l p e g) := w in mkWorld t s n r l (delete i p) e g.

(** The keys the page offers: those of the buttons and of the forms'
    buttons. *)
Definition catalog_keys (c : Component) : list string :=
  (ngIfKey <$> default [] (allResultsButtons c))
  ++ ((λ f, ngIfKey (button f)) <$> default [] (allResultsForms c)).

(** An event that neither runs [ngOnInit] on its own nor selects the
    view [v]. *)
Definition leaves_alone (v : View) (ev : Event) : Prop :=
  match ev with
  | Init => False
  | Press key => key ≠ view_key v
  | _ => True
  end.

(** The view [v] is at rest in [w]: the arrays exist, [v] has [x] stored
    and no request for it is in flight. *)
Definition at_rest (v : View) (x : Stored) (w : World) : Prop :=
  initialised w
  ∧ stored v (this w) = x
  ∧ Forall (λ c, Service.method c ≠ view_method v) (in_flight w).

(** ** More vocabulary for sessions *)

Definition all_tables : list TableView :=
  [ProjectCapacity; ProjectRetirements; ProjectNewBuild; ProjectDispatch;
   ProjectCarbon; TransmissionCapacity; TransmissionFlows; ImportsExports;
   SystemLoadBalance; SystemRPS; SystemCarbonCap; SystemPRM].

Definition all_plots : list PlotView :=
  [DispatchPlot; CapacityNewPlot; CapacityRetiredPlot; CapacityTotalPlot;
   EnergyPlot; CostPlot; CapacityFactorPlot].

(** The methods whose handlers embed a plot. *)
Definition is_plot_method (m : Service.Method) : bool :=
  match m with
  | Service.getResultsDispatchPlot
  | Service.getResultsCapacityNewPlot
  | Service.getResultsCapacityRetiredPlot
  | Service.getResultsCapacityTotalPlot
  | Service.getResultsEnergyPlot
  | Service.getResultsCostPlot
  | Service.getResultsCapacityFactorPlot => true
  | _ => false
  end.

Definition is_plot_fetch (c : Service.Call) : bool :=
  is_plot_method (Service.method c).

(** The option lists that the selects of a plot's form are given, in the
    order of [select_controls]. *)
Definition select_options (p : PlotView) (o : Service.PlotOptions)
    : list (list string) :=
  match p with
  | DispatchPlot => [Service.loadZoneOptions o; Service.horizonOptions o]
  | CapacityNewPlot | CapacityRetiredPlot | CapacityTotalPlot =>
      [Service.loadZoneOptions o]
  | EnergyPlot | CostPlot | CapacityFactorPlot =>
      [Service.loadZoneOptions o; Service.stageOptions o]
  end.

(** The methods whose handlers push to [allTables], and the events that
    answer a request of such a method with rows. *)
Definition is_table_method (m : Service.Method) : bool :=
  match m with
  | Service.getResultsProjectCapacity
  | Service.getResultsProjectRetirements
  | Service.getResultsProjectNewBuild
  | Service.getResultsProjectDispatch
  | Service.getResultsProjectCarbon
  | Service.getResultsTransmissionCapacity
  | Service.getResultsTransmissionFlows
  | Service.getResultsImportsExports
  | Service.getResultsSystemLoadBalance
  | Service.getResultsSystemRPS
  | Service.getResultsSystemCarbonCap
  | Service.getResultsSystemPRM => true
  | _ => false
  end.

Definition answers_table (w : World) (ev : Event) : bool :=
  match ev with
  | Answer i (Rows _) =>
      from_option (λ c, is_table_method (Service.method c)) false
        (in_flight w !! i)
  | _ => false
  end.

(** Handlers can run without a [TypeError]: the arrays exist, or no
    request is in flight. *)
Definition safe (w : World) : Prop :=
  initialised w ∨ in_flight w = [].

(** The key last published by the events: that of the last button
    pressed, [''] after going back. *)
Definition selected (start : string) (evs : list Event) : string :=
  foldl (λ key ev,
    match ev with
    | Press key' => key'
    | Leave => ""
    | _ => key
    end) start evs.

Definition is_choice (ev : Event) : bool :=
  match ev with Choose _ _ _ => true | _ => false end.

End Component.

(** ** A page to try things on

    Rows are lists of cells, a plot is the text of its JSON. *)

Definition Cells : Type := list (list string).

Definition some_options : Service.PlotOptions :=
  {| Service.loadZoneOptions := ["ZoneA"; "ZoneB"];
     Service.horizonOptions := ["2030"];
     Service.stageOptions := ["1"] |}.

(** The world a session ends in ([page 0] if it threw). *)
Definition session (id : Z) (evs : list (@Event Cells string))
    : @World Cells string :=
  match run evs (page id) with
  | Normal w => w
  | Throw _ => page 0
  end.

(** Project capacity has been shown and every request answered. *)
Definition capacity_shown : @World Cells string :=
  session 42
    [Init; Press "results-project-capacity";
     Answer 2 (Rows [["Wind"; "100"]]);
     Answer 0 (Options some_options); Answer 0 (Options some_options)].

(** The dispatch form with both selects chosen, for a load zone and a
    y-axis maximum. *)
Definition dispatch_chosen (loadZone : string) (yMax : JsVal)
    : @World Cells string :=
  session 42
    [Init;
     Choose DispatchPlot "dispatchPlotLoadZone" (JStr loadZone);
     Choose DispatchPlot "dispatchPlotHorizon" (JStr "2030");
     Choose DispatchPlot "dispatchPlotYMax" yMax].

(** * Properties *)

Section Properties.

Context {ScenarioResults PlotJSON : Type}.

#[local] Abbreviation World := (@World ScenarioResults PlotJSON).
#[local] Abbreviation Component := (@Component ScenarioResults PlotJSON).
#[local] Abbreviation Stmt := (@Stmt ScenarioResults PlotJSON).
#[local] Abbreviation Response := (@Response ScenarioResults PlotJSON).
#[local] Abbreviation Event := (@Event ScenarioResults PlotJSON).
#[local] Abbreviation Stored := (@Stored ScenarioResults PlotJSON).

Implicit Types (w : World) (key : string).

#[local] Arguments form_value : simpl never.
#[local] Arguments to_js_string : simpl never.

(** *** Outcomes *)

Lemma after_mono (r : Completion World) (P Q : World → Prop) :
  (∀ w, P w → Q w) → after r P → after r Q.
Proof. destruct r; cbn; [auto|done]. Qed.

Lemma after_and (r : Completion World) (P Q : World → Prop) :
  after r P → after r Q → after r (λ w, P w ∧ Q w).
Proof. destruct r; cbn; [auto|done]. Qed.

Lemma after_two (r : Completion World) (P Q R : World → Prop) :
  (∀ w, P w → Q w → R w) → after r P → after r Q → after r R.
Proof. destruct r; cbn; [auto|done]. Qed.

Lemma after_seq (s1 s2 : Stmt) w (P : World → Prop) :
  after (seq s1 s2 w) P ↔ after (s1 w) (λ w1, after (s2 w1) P).
Proof. unfold seq. by destruct (s1 w). Qed.

(** *** Strings *)

Lemma length_app (s t : string) :
  String.length (s +:+ t) = String.length s + String.length t.
Proof.
  induction s as [|a s IH]; [done|].
  change (S (String.length (s +:+ t)) = S (String.length s + String.length t)).
  by rewrite IH.
Qed.

Lemma app_inj_2 (s1 s2 t : string) : s1 +:+ t = s2 +:+ t → s1 = s2.
Proof.
  revert s2. induction s1 as [|a s1 IH]; intros [|b s2] H.
  - done.
  - apply (f_equal String.length) in H.
    rewrite !length_app in H. cbn in H. lia.
  - apply (f_equal String.length) in H.
    rewrite !length_app in H. cbn in H. lia.
  - change (String a (s1 +:+ t) = String b (s2 +:+ t)) in H.
    injection H as -> H. f_equal. by apply IH.
Qed.

(** *** Selecting a key runs [ngOnInit] on it *)

(** The subscribers notified by [changeResultsToView] only assign
    [this.resultsToShow]. *)
Lemma notify_resultsToShow n key w :
  ∃ o, notify n key w = Normal (with_this (set_resultsToShow o) w).
Proof.
  revert w. induction n as [|n IH]; intros w.
  - exists (resultsToShow (this w)). by destruct w as [[] ? ? ? ? ? ?].
  - destruct (IH (with_this (set_resultsToShow (Some key)) w)) as [o Ho].
    exists o. cbn [notify seq getResultsToShow_next assign]. rewrite Ho.
    by destruct w as [[] ? ? ? ? ? ?].
Qed.

(** [ngOnInit] reads [this.resultsToShow] only after its subscription to
    the subject has assigned it. *)
Lemma ngOnInit_forgets o w :
  ngOnInit (with_this (set_resultsToShow o) w) = ngOnInit w.
Proof. by destruct w as [[] ? ? ? ? ? ?]. Qed.

Lemma showResults_ngOnInit key w :
  showResults key w = ngOnInit (select key w).
Proof.
  unfold showResults, seq, changeResultsToView.
  destruct w as [c s n r l p e g].
  destruct (notify_resultsToShow n key (mkWorld c key n r l p e g)) as [o ->].
  apply ngOnInit_forgets.
Qed.

(** The chain of [if]s of [ngOnInit] is the dispatch on the selected
    key: the fetch of the view that [resolve] finds, or nothing. *)
Lemma ngOnInit_dispatch w :
  ngOnInit w = seq ngOnInit_setup (get_data (resultsToViewSubject w)) w.
Proof.
  destruct w as [[] s n r l p e].
  unfold get_data, resolve. cbn [resultsToViewSubject].
  repeat match goal with
  | |- context [String.eqb s ?lit] =>
      let E := fresh "E" in
      destruct (String.eqb s lit) eqn:E;
      [apply String.eqb_eq in E; subst s; reflexivity|]
  end.
  unfold ngOnInit, ngOnInit_setup, seq, If, showing; cbn.
  repeat match goal with
  | E : String.eqb s _ = false |- _ => rewrite E; clear E; cbn
  end.
  reflexivity.
Qed.

Lemma showResults_dispatch key w :
  showResults key w = seq ngOnInit_setup (get_data key) (select key w).
Proof.
  rewrite showResults_ngOnInit, ngOnInit_dispatch. by destruct w.
Qed.

(** C8: one pass through [ngOnInit], alone or as the refresh of
    [showResults], makes at most one result fetch. *)
Theorem one_fetch_per_activation key w :
  after (ngOnInit w) (λ w',
    ∃ calls, http_log w' = http_log w ++ calls
      ∧ length (List.filter Service.is_results_fetch calls) ≤ 1)
  ∧ after (showResults key w) (λ w',
    ∃ calls, http_log w' = http_log w ++ calls
      ∧ length (List.filter Service.is_results_fetch calls) ≤ 1).
Proof.
  rewrite showResults_dispatch, ngOnInit_dispatch.
  destruct w as [[] s n r l p e]. unfold get_data.
  cbn [select resultsToViewSubject].
  split.
  - destruct (resolve s) as [[[]|[]]|]; cbn; eexists;
      (split; [by rewrite <-?app_assoc|cbn; lia]).
  - destruct (resolve key) as [[[]|[]]|]; cbn; eexists;
      (split; [by rewrite <-?app_assoc|cbn; lia]).
Qed.

(** *** Activating a plot view *)

(** What activating a plot view does, in terms of [render_target_name]
    and [plot_call]. *)
Lemma showResults_plot (p : PlotView) w :
  let form := plot_form p (this w) in
  let sid := JNum (route_id w) in
  after (showResults (plot_key p) w) (λ w',
    http_log w' = http_log w ++ [options_call w; plot_call p sid form]
    ∧ in_flight w' = in_flight w ++ [options_call w; plot_call p sid form]
    ∧ plot_HTMLName p (this w') = Some (render_target_name p form)
    ∧ plot_JSON p (this w') = plot_JSON p (this w)
    ∧ embedded w' = embedded w).
Proof.
  rewrite showResults_dispatch.
  destruct w as [[] s n r l q e], p; cbn; rewrite <-!app_assoc; done.
Qed.

(** The name depends on the select controls alone, each through its
    rendering in the template. *)
Lemma render_target_name_eq_iff (p : PlotView) (f1 f2 : gmap string JsVal)
    (control : string) :
  control ∈ select_controls p →
  (∀ other, other ∈ select_controls p → other ≠ control →
     form_value f1 other = form_value f2 other) →
  render_target_name p f1 = render_target_name p f2
  ↔ to_js_string (form_value f1 control) = to_js_string (form_value f2 control).
Proof.
  intros Hin Hothers.
  assert (∀ other, other ∈ select_controls p → other ≠ control →
    to_js_string (form_value f1 other) = to_js_string (form_value f2 other)) as Hs.
  { intros other ? ?. by rewrite Hothers. }
  clear Hothers.
  destruct p; cbn in Hin, Hs |- *;
    repeat match goal with
    | H : _ ∈ _ :: _ |- _ => apply elem_of_cons in H as [->|H]
    | H : _ ∈ [] |- _ => by apply elem_of_nil in H
    end.
  all: repeat match goal with
    | Hs : ∀ o, _ → _ → _ |- context [to_js_string (form_value _ ?other)] =>
        rewrite (Hs other) by first [by repeat constructor | congruence]
    end.
  all: split; intros H; [|by rewrite H].
  all: repeat (apply (inj (String.app _)) in H).
  all: first [done | by apply app_inj_2 in H].
Qed.

(** C1, as the code has it: the render target name set by activating a
    plot view depends only on the view and the values of its select
    controls (load zone, horizon, stage). Of two activations whose forms
    agree on every select control but one, whatever their y-axis maxima
    and the rest of the page, the names are equal exactly when the values
    of that control are rendered alike by the template; so equal
    parameters give equal names, a select value that renders differently
    gives a different name, and the y-axis maximum never changes it. *)
Theorem render_target_name_depends_on_selects (p : PlotView) w1 w2
    (control : string) :
  control ∈ select_controls p →
  (∀ other, other ∈ select_controls p → other ≠ control →
     form_value (plot_form p (this w1)) other
     = form_value (plot_form p (this w2)) other) →
  after (showResults (plot_key p) w1) (λ w1',
    after (showResults (plot_key p) w2) (λ w2',
      plot_HTMLName p (this w1') = plot_HTMLName p (this w2')
      ↔ to_js_string (form_value (plot_form p (this w1)) control)
        = to_js_string (form_value (plot_form p (this w2)) control))).
Proof.
  intros Hin Hothers.
  pose proof (showResults_plot p w1) as H1.
  pose proof (showResults_plot p w2) as H2.
  destruct (showResults (plot_key p) w1) as [w1'|]; [|done].
  destruct (showResults (plot_key p) w2) as [w2'|]; [|done].
  cbn in *. destruct H1 as (_ & _ & -> & _), H2 as (_ & _ & -> & _).
  rewrite <-(render_target_name_eq_iff p _ _ control Hin Hothers).
  split; [by intros [= ->]|by intros ->].
Qed.

(** C2: activating a plot view calls its plot method with the scenario id,
    then the values of the select controls as the form holds them
    ([null] included), then the y-axis maximum, which is ['default'] if
    the form holds [null] and the form's value otherwise. *)
Theorem yMax_default_substitution (p : PlotView) w :
  let form := plot_form p (this w) in
  let yMax := form_value form (yMax_control p) in
  after (showResults (plot_key p) w) (λ w',
    ∃ y, last (http_log w') =
           Some (Service.call (plot_method p)
                   (JNum (route_id w)
                      :: (form_value form <$> select_controls p) ++ [y]))
      ∧ (yMax = JNull → y = JStr "default")
      ∧ (yMax ≠ JNull → y = yMax)).
Proof.
  intros form yMax. eapply after_mono, showResults_plot.
  intros w' (Hlog & _). exists (yMax_argument yMax). split; [|split].
  - by rewrite Hlog, last_app.
  - by intros ->.
  - unfold yMax_argument. by destruct yMax.
Qed.

(** C9: a y-axis maximum of [undefined], [0] or [''] reaches the plot
    method as it is. *)
Theorem yMax_only_null_is_default (p : PlotView) w (v : JsVal) :
  v ∈ [JUndefined; JNum 0; JStr ""] →
  form_value (plot_form p (this w)) (yMax_control p) = v →
  after (showResults (plot_key p) w) (λ w',
    ∃ c, last (http_log w') = Some c
      ∧ Service.method c = plot_method p
      ∧ last (Service.args c) = Some v).
Proof.
  intros Hv Hform. eapply after_mono, showResults_plot.
  intros w' (Hlog & _). eexists. split; [|split].
  - by rewrite Hlog, last_app.
  - done.
  - cbn. rewrite app_comm_cons, last_snoc, Hform.
    repeat (apply elem_of_cons in Hv as [->|Hv]; [done|]).
    by apply elem_of_nil in Hv.
Qed.

(** The calls of an activation of a plot view, each with the HTML names
    noted when it was made. *)
Lemma showResults_plot_names (p : PlotView) w :
  let form := plot_form p (this w) in
  after (showResults (plot_key p) w) (λ w',
    ∃ at_options at_plot : Component,
      names_at_call w' =
        names_at_call w ++ [html_names at_options; html_names at_plot]
      ∧ plot_HTMLName p at_options = plot_HTMLName p (this w)
      ∧ plot_HTMLName p at_plot = Some (render_target_name p form)).
Proof.
  intros form.
  assert (after (showResults (plot_key p) w) (λ w',
    names_at_call w' =
      names_at_call w
      ++ [html_names (this w);
          html_names
            (set_plot_HTMLName p (Some (render_target_name p form)) (this w))]))
    as H.
  { rewrite showResults_dispatch. unfold form.
    destruct w as [[] s n r l q e g], p; cbn; by rewrite <-!app_assoc. }
  eapply after_mono, H. intros w' Hnames.
  exists (this w),
    (set_plot_HTMLName p (Some (render_target_name p form)) (this w)).
  split; [done|]. split; [done|].
  by destruct w as [[] s n r l q e g], p.
Qed.

(** The names noted with the calls tell the order of assignment and
    request: a method that made its request first and assigned the name
    afterwards would leave another world. *)
Lemma request_then_name_differs (p : PlotView) (name : string)
    (c : Service.Call) w :
  plot_HTMLName p (this w) ≠ Some name →
  seq (http_subscribe c) (assign (set_plot_HTMLName p (Some name))) w
  ≠ seq (assign (set_plot_HTMLName p (Some name))) (http_subscribe c) w.
Proof.
  intros Hne Heq. apply Hne.
  destruct w as [[] s n r l q e g], p; cbn in Heq |- *.
  all: injection Heq as Heq; apply app_inv_head in Heq;
    by injection Heq as <-.
Qed.

(** C10: a plot method assigns the HTML name, computed from the form as it
    stands, and makes its request in the world that already holds the
    name: of the two calls of an activation, the options are asked for
    under the old name and the plot under the new one. After the
    activation the name is set although the request is still in flight,
    the plot slot is as before and nothing was embedded. *)
Theorem name_assigned_before_fetch (p : PlotView) (scenarioID : JsVal) w :
  let form := plot_form p (this w) in
  let name := render_target_name p form in
  fetch (APlot p) scenarioID w
    = http_subscribe (plot_call p scenarioID form)
        (with_this (set_plot_HTMLName p (Some name)) w)
  ∧ after (showResults (plot_key p) w) (λ w',
      plot_HTMLName p (this w') = Some name
      ∧ last (in_flight w') = Some (plot_call p (JNum (route_id w)) form)
      ∧ plot_JSON p (this w') = plot_JSON p (this w)
      ∧ embedded w' = embedded w
      ∧ ∃ at_options at_plot : Component,
          http_log w' =
            http_log w
            ++ [options_call w; plot_call p (JNum (route_id w)) form]
          ∧ names_at_call w' =
              names_at_call w ++ [html_names at_options; html_names at_plot]
          ∧ plot_HTMLName p at_options = plot_HTMLName p (this w)
          ∧ plot_HTMLName p at_plot = Some name).
Proof.
  intros form name. split.
  - by destruct w as [[] s n r l q e], p.
  - eapply after_two; [|apply showResults_plot|apply showResults_plot_names].
    intros w' (Hlog & Hfl & Hname & Hjson & Hemb)
      (at_options & at_plot & Hnames & Hbefore & Hafter).
    do 4 (split; [first [done | by rewrite Hfl, last_app]|]).
    by exists at_options, at_plot.
Qed.

(** *** Answers *)

Lemma answer_Some i (r : Response) w (c : Service.Call) :
  in_flight w !! i = Some c →
  answer i r w = next (Service.method c) r (landed i w).
Proof. intros H. unfold answer. rewrite H. by destruct w. Qed.

Lemma answer_None i (r : Response) w :
  in_flight w !! i = None → answer i r w = Normal w.
Proof. intros H. unfold answer. by rewrite H. Qed.

Lemma answer_table (t : TableView) i (rows : ScenarioResults) w
    (c : Service.Call) (tables : list ScenarioResults) :
  in_flight w !! i = Some c →
  Service.method c = table_method t →
  allTables (this w) = Some tables →
  after (answer i (Rows rows) w) (λ w',
    table_result t (this w') = Some rows
    ∧ allTables (this w') = Some (tables ++ [rows])
    ∧ in_flight w' = delete i (in_flight w)).
Proof.
  intros Hi Hm Ht. rewrite (answer_Some _ _ _ _ Hi), Hm.
  destruct w as [[] s n r l q e]. cbn in Ht. subst.
  by destruct t.
Qed.

(** *** Activating a table view *)

Lemma showResults_table (t : TableView) w :
  let request := Service.call (table_method t) [JNum (route_id w)] in
  after (showResults (table_key t) w) (λ w',
    http_log w' = http_log w ++ [options_call w; request]
    ∧ in_flight w' = in_flight w ++ [options_call w; request]
    ∧ allTables (this w') = Some []).
Proof.
  rewrite showResults_dispatch.
  destruct w as [[] s n r l q e], t; cbn; rewrite <-!app_assoc; done.
Qed.

(** C3: the session of scenario 42. The table method is called with [42],
    its rows are stored and are the one entry of [allTables]; with load
    zone ["ZoneA"], horizon ["2030"] and the y-axis maximum left at [null],
    the dispatch plot gets the name ["dispatchPlot-ZoneA-2030"] and its
    method the arguments [42, "ZoneA", "2030", "default"]. *)
Theorem scenario_42 (rows : ScenarioResults) :
  after (run [Init; Press "results-project-capacity"] (page 42)) (λ w1,
    http_log w1 =
      [Service.call Service.getOptions [JNum 42];
       Service.call Service.getOptions [JNum 42];
       Service.call Service.getResultsProjectCapacity [JNum 42]]
    ∧ in_flight w1 !! 2 =
        Some (Service.call Service.getResultsProjectCapacity [JNum 42])
    ∧ after (answer 2 (Rows rows) w1) (λ w2,
        resultsProjectCapacity (this w2) = Some rows
        ∧ allTables (this w2) = Some [rows]
        ∧ after
            (run [Choose DispatchPlot "dispatchPlotLoadZone" (JStr "ZoneA");
                  Choose DispatchPlot "dispatchPlotHorizon" (JStr "2030");
                  Press "results-dispatch-plot"] w2) (λ w3,
            form_value (dispatchPlotOptionsForm (this w3)) "dispatchPlotYMax"
              = JNull
            ∧ dispatchPlotHTMLName (this w3) = Some "dispatchPlot-ZoneA-2030"
            ∧ http_log w3 = http_log w2 ++
                [Service.call Service.getOptions [JNum 42];
                 Service.call Service.getResultsDispatchPlot
                   [JNum 42; JStr "ZoneA"; JStr "2030"; JStr "default"]]))).
Proof. vm_compute. repeat split. Qed.

(** *** Keys outside the catalog *)

Lemma resolve_key key (v : View) : resolve key = Some v → view_key v = key.
Proof.
  unfold resolve.
  repeat match goal with
  | |- context [String.eqb key ?lit] =>
      destruct (String.eqb_spec key lit) as [->|_]; [by intros [= <-]|]
  end.
  done.
Qed.

Lemma resolve_view_key (v : View) : resolve (view_key v) = Some v.
Proof. by destruct v as [[]|[]]. Qed.

(** [resolve] knows the keys of the catalog that [ngOnInit] and the answer
    to [getOptions] build, and no others. *)
Lemma resolve_catalog (id : Z) (o : Service.PlotOptions) :
  after (run [Init; Answer 0 (Options o)] (page id)) (λ w,
    ∀ key, key ∈ catalog_keys (this w) ↔ is_Some (resolve key)).
Proof.
  cbn. intros key. unfold catalog_keys. cbn. split.
  - intros H.
    repeat (apply elem_of_cons in H as [->|H]; [by eexists|]).
    by apply elem_of_nil in H.
  - intros [v Hv]. apply resolve_key in Hv as <-.
    destruct v as [[]|[]]; cbn; by repeat constructor.
Qed.

(** The buttons carry the keys of the table views, and each form the
    key, the select controls and the y-axis-maximum control of the plot
    view whose form group it refers to. *)
Lemma catalog_matches_views (id : Z) (o : Service.PlotOptions) :
  after (run [Init; Answer 0 (Options o)] (page id)) (λ w,
    ∃ buttons forms,
      allResultsButtons (this w) = Some buttons
      ∧ allResultsForms (this w) = Some forms
      ∧ ngIfKey <$> buttons =
          table_key <$>
            [ProjectCapacity; ProjectRetirements; ProjectNewBuild;
             ProjectDispatch; ProjectCarbon; TransmissionCapacity;
             TransmissionFlows; ImportsExports; SystemLoadBalance;
             SystemRPS; SystemCarbonCap; SystemPRM]
      ∧ formGroup <$> forms =
          [DispatchPlot; CapacityNewPlot; CapacityRetiredPlot;
           CapacityTotalPlot; EnergyPlot; CostPlot; CapacityFactorPlot]
      ∧ Forall (λ f,
          ngIfKey (button f) = plot_key (formGroup f)
          ∧ formControlName <$> selectForms f = select_controls (formGroup f)
          ∧ yMaxFormControlName f = yMax_control (formGroup f)) forms).
Proof.
  cbn. do 2 eexists. do 4 (split; [reflexivity|]).
  repeat constructor.
Qed.

(** C6, as the code has it: no activation raises an error, whatever the
    key. It selects the key and asks for the option lists; a key of the
    catalog then has its own method called, a key outside the catalog has
    nothing called and leaves every stored result as it was. *)
Theorem unknown_key_is_ignored key w :
  after (showResults key w) (λ w',
    resultsToShow (this w') = Some key
    ∧ match resolve key with
      | Some v =>
          ∃ c, Service.method c = view_method v
            ∧ http_log w' = http_log w ++ [options_call w; c]
      | None =>
          http_log w' = http_log w ++ [options_call w]
          ∧ ∀ v, stored v (this w') = stored v (this w)
      end).
Proof.
  rewrite showResults_dispatch. unfold get_data.
  destruct w as [[] s n r l q e]. cbn [select].
  destruct (resolve key) as [[[]|[]]|]; cbn;
    (split; [done|]); rewrite <-?app_assoc.
  all: first
    [ eexists; (split; [|reflexivity]); reflexivity
    | split; [done|by intros [[]|[]]] ].
Qed.

(** *** What one event changes *)

Lemma view_method_inj (v1 v2 : View) :
  view_method v1 = view_method v2 → v1 = v2.
Proof. by destruct v1 as [[]|[]], v2 as [[]|[]]. Qed.

Lemma view_method_results (v : View) :
  view_method v ≠ Service.getOptions.
Proof. by destruct v as [[]|[]]. Qed.

(** One pass through [ngOnInit]: the arrays are fresh, the option lists
    are asked for, then the selected view, if any, is fetched; no stored
    result but the HTML name of a selected plot changes. *)
Lemma ngOnInit_frame w :
  after (ngOnInit w) (λ w',
    allTables (this w') = Some []
    ∧ allResultsForms (this w') = Some []
    ∧ route_id w' = route_id w
    ∧ resultsToViewSubject w' = resultsToViewSubject w
    ∧ (∀ v, resolve (resultsToViewSubject w) ≠ Some v →
         stored v (this w') = stored v (this w))
    ∧ ∃ calls,
        http_log w' = http_log w ++ options_call w :: calls
        ∧ in_flight w' = in_flight w ++ options_call w :: calls
        ∧ match resolve (resultsToViewSubject w) with
          | Some v => ∃ c, calls = [c] ∧ Service.method c = view_method v
          | None => calls = []
          end).
Proof.
  rewrite ngOnInit_dispatch. unfold get_data.
  destruct w as [[] s n r l q e]. cbn [resultsToViewSubject].
  destruct (resolve s) as [[[]|[]]|]; cbn; rewrite <-?app_assoc.
  all: do 4 (split; [done|]).
  all: (split; [by intros [[]|[]]|]).
  all: eexists; (split; [reflexivity|]); (split; [reflexivity|]).
  all: first [done | by eexists].
Qed.

Lemma showResults_frame key w :
  after (showResults key w) (λ w',
    allTables (this w') = Some []
    ∧ allResultsForms (this w') = Some []
    ∧ route_id w' = route_id w
    ∧ resultsToViewSubject w' = key
    ∧ (∀ v, resolve key ≠ Some v → stored v (this w') = stored v (this w))
    ∧ ∃ calls,
        http_log w' = http_log w ++ options_call w :: calls
        ∧ in_flight w' = in_flight w ++ options_call w :: calls
        ∧ match resolve key with
          | Some v => ∃ c, calls = [c] ∧ Service.method c = view_method v
          | None => calls = []
          end).
Proof.
  rewrite showResults_ngOnInit.
  eapply after_mono, ngOnInit_frame. by destruct w.
Qed.

(** The handler of an answer: it touches neither the requests nor the
    selection, and only the result of the view the method belongs to. *)
Lemma next_frame (m : Service.Method) (r : Response) w :
  initialised w →
  after (next m r w) (λ w',
    initialised w'
    ∧ http_log w' = http_log w
    ∧ in_flight w' = in_flight w
    ∧ route_id w' = route_id w
    ∧ (∀ v, view_method v ≠ m → stored v (this w') = stored v (this w))
    ∧ (∀ p, plot_HTMLName p (this w') = plot_HTMLName p (this w))).
Proof.
  destruct w as [[] s n rt l q e]. intros [[tables Ht] [forms Hf]].
  cbn in Ht, Hf. subst.
  destruct m, r; cbn.
  all: (split; [by split; eexists|]); do 3 (split; [done|]).
  all: (split; [|by intros []]).
  all: intros [[]|[]] Hm; first [done | by destruct Hm].
Qed.

Lemma answer_frame i (r : Response) w :
  initialised w →
  after (answer i r w) (λ w',
    initialised w'
    ∧ http_log w' = http_log w
    ∧ route_id w' = route_id w
    ∧ in_flight w' ⊆ in_flight w
    ∧ (∀ v, (∀ c, in_flight w !! i = Some c →
              Service.method c ≠ view_method v) →
         stored v (this w') = stored v (this w))
    ∧ (∀ p, plot_HTMLName p (this w') = plot_HTMLName p (this w))).
Proof.
  intros Hinit. destruct (in_flight w !! i) as [c|] eqn:Hi.
  - rewrite (answer_Some _ _ _ _ Hi).
    eapply after_mono, next_frame; [|by destruct w].
    intros w' (? & ? & Hfl & ? & Hstored & ?).
    split; [done|]. split; [by destruct w|]. split; [by destruct w|].
    split.
    { rewrite Hfl. destruct w; cbn.
      apply sublist_subseteq, sublist_delete. }
    split; [|by destruct w].
    intros v Hv. rewrite Hstored; [by destruct w|].
    intros ?. by eapply Hv.
  - rewrite (answer_None _ _ _ Hi). cbn.
    do 3 (split; [done|]). by split; [set_solver|].
Qed.

Lemma setValue_frame (p : PlotView) (control : string) (x : JsVal) w :
  after (setValue p control x w) (λ w',
    (initialised w → initialised w')
    ∧ http_log w' = http_log w
    ∧ in_flight w' = in_flight w
    ∧ route_id w' = route_id w
    ∧ (∀ v, stored v (this w') = stored v (this w))).
Proof.
  unfold setValue. destruct (plot_form p (this w) !! control); [|done].
  destruct w as [[] s n r l q e], p; cbn.
  all: do 4 (split; [done|]); by intros [[]|[]].
Qed.

Lemma goBack_frame w :
  after (goBack w) (λ w',
    (initialised w → initialised w')
    ∧ http_log w' = http_log w
    ∧ in_flight w' = in_flight w
    ∧ route_id w' = route_id w
    ∧ (∀ v, stored v (this w') = stored v (this w))).
Proof.
  unfold goBack, changeResultsToView. destruct w as [c s n r l q e g].
  destruct (notify_resultsToShow n "" (mkWorld c "" n r l q e g)) as [o ->].
  destruct c. cbn. do 4 (split; [done|]). by intros [[]|[]].
Qed.

(** Apart from the rows of a table answer, [allTables] changes only by
    being emptied in [ngOnInit]. *)
Lemma handle_allTables (ev : Event) w :
  initialised w →
  answers_table w ev = false →
  after (handle ev w) (λ w',
    allTables (this w') =
      if refreshes ev then Some [] else allTables (this w)).
Proof.
  intros Hinit Hev.
  destruct ev as [|key|p control y| |i r]; cbn [handle refreshes].
  - eapply after_mono, ngOnInit_frame. by intros w' (? & _).
  - eapply after_mono, showResults_frame. by intros w' (? & _).
  - unfold setValue. destruct (plot_form p (this w) !! control); [|done].
    by destruct w as [[] s n r l q e g], p.
  - unfold goBack, changeResultsToView. destruct w as [c s n r l q e g].
    destruct (notify_resultsToShow n "" (mkWorld c "" n r l q e g))
      as [o ->].
    by destruct c.
  - destruct (in_flight w !! i) as [c|] eqn:Hi;
      [|by rewrite (answer_None _ _ _ Hi)].
    rewrite (answer_Some _ _ _ _ Hi).
    cbn [answers_table] in Hev. rewrite Hi in Hev. cbn in Hev.
    destruct w as [[] s n rt l q e g]. destruct Hinit as [[tables Ht] [forms Hf]].
    cbn in Ht, Hf. subst.
    by destruct (Service.method c), r.
Qed.

(** C4, as the code has it: activating a table view empties [allTables]
    and calls the view's table method with the scenario id. When an answer
    arrives its rows are stored as the view's result and appended, as one
    more entry, to [allTables] as it then stands: the first answer after
    the activation leaves the array with that entry alone, a later one
    puts its rows behind those already there, so that a button pressed
    twice before its answers come leaves its table twice. Nothing else
    changes the array, and every pass through [ngOnInit] empties it: it
    holds the tables answered since the latest activation, in the order
    of arrival, not those of the whole session. *)
Theorem table_activation (t : TableView) (rows : ScenarioResults) :
  (∀ w,
    let request := Service.call (table_method t) [JNum (route_id w)] in
    let i := S (length (in_flight w)) in
    after (showResults (table_key t) w) (λ w1,
      http_log w1 = http_log w ++ [options_call w; request]
      ∧ allTables (this w1) = Some []
      ∧ in_flight w1 !! i = Some request
      ∧ after (answer i (Rows rows) w1) (λ w2,
          table_result t (this w2) = Some rows
          ∧ allTables (this w2) = Some [rows])))
  ∧ (∀ w i (c : Service.Call) (tables : list ScenarioResults),
      in_flight w !! i = Some c →
      Service.method c = table_method t →
      allTables (this w) = Some tables →
      after (answer i (Rows rows) w) (λ w',
        table_result t (this w') = Some rows
        ∧ allTables (this w') = Some (tables ++ [rows])))
  ∧ (∀ w (ev : Event),
      initialised w →
      answers_table w ev = false →
      after (handle ev w) (λ w',
        allTables (this w') =
          if refreshes ev then Some [] else allTables (this w))).
Proof.
  split; [|split].
  - intros w request i.
    pose proof (showResults_table t w) as H.
    destruct (showResults (table_key t) w) as [w1|]; [|done].
    cbn in H |- *. destruct H as (Hlog & Hfl & Htables).
    assert (in_flight w1 !! i = Some request) as Hi.
    { rewrite Hfl. unfold i.
      rewrite lookup_app_r by lia.
      by replace (S (length (in_flight w)) - length (in_flight w)) with 1
        by lia. }
    repeat split; try done.
    eapply after_mono, (answer_table t i rows w1 request []); try done.
    by intros w2 (? & ? & _).
  - intros w i c tables Hi Hm Ht.
    eapply after_mono, (answer_table t i rows w c tables); try done.
    by intros w2 (? & ? & _).
  - intros w ev. apply handle_allTables.
Qed.

(** *** Sessions *)

Lemma handle_at_rest (v : View) (x : Stored) (ev : Event) w :
  leaves_alone v ev → at_rest v x w → after (handle ev w) (at_rest v x).
Proof.
  intros Hev (Hinit & Hstored & Hfl).
  destruct ev as [|key|p control y| |i r]; cbn [handle leaves_alone] in *.
  - done.
  - eapply after_mono, showResults_frame.
    intros w' (Ht & Hf & _ & _ & Hkeep & calls & _ & Hfl' & Hcalls).
    assert (resolve key ≠ Some v) as Hv.
    { intros ?%resolve_key. by apply Hev. }
    split; [by split; eexists|]. split; [by rewrite Hkeep|].
    rewrite Hfl'. apply Forall_app. split; [done|].
    apply Forall_cons. split; [apply not_eq_sym, view_method_results|].
    destruct (resolve key) as [v'|]; [|by subst].
    destruct Hcalls as (c & -> & Hc). apply Forall_singleton.
    rewrite Hc. intros ?%view_method_inj. by subst.
  - eapply after_mono, setValue_frame.
    intros w' (Hinit' & _ & Hfl' & _ & Hkeep).
    split; [auto|]. split; [by rewrite Hkeep|]. by rewrite Hfl'.
  - eapply after_mono, goBack_frame.
    intros w' (Hinit' & _ & Hfl' & _ & Hkeep).
    split; [auto|]. split; [by rewrite Hkeep|]. by rewrite Hfl'.
  - eapply after_mono, answer_frame; [|done].
    intros w' (Hinit' & _ & _ & Hfl' & Hkeep & _).
    rewrite Forall_forall in Hfl.
    split; [done|]. split.
    + rewrite Hkeep; [done|]. intros c Hc.
      by eapply Hfl, list_elem_of_lookup_2.
    + apply Forall_forall. intros c Hc. by apply Hfl, Hfl'.
Qed.

Lemma run_at_rest (v : View) (x : Stored) (evs : list Event) w :
  Forall (leaves_alone v) evs → at_rest v x w →
  after (run evs w) (at_rest v x).
Proof.
  intros Hevs. revert w.
  induction Hevs as [|ev evs Hev _ IH]; intros w Hw; [done|].
  cbn [run]. apply after_seq.
  eapply after_mono, handle_at_rest; eauto.
Qed.

(** C7: once a view has its result and no request for it is in flight,
    nothing that happens on the page short of selecting that view again
    changes what is stored for it: not the selection of other keys, nor
    their answers, nor form choices, nor going back. *)
Theorem other_views_keep_results (v : View) (evs : list Event) w :
  initialised w →
  Forall (λ c, Service.method c ≠ view_method v) (in_flight w) →
  Forall (leaves_alone v) evs →
  after (run evs w) (λ w', stored v (this w') = stored v (this w)).
Proof.
  intros Hinit Hfl Hevs.
  eapply after_mono, (run_at_rest v (stored v (this w))); try done.
  by intros w' (_ & ? & _).
Qed.

(** What an event adds to the log, as far as [getOptions] goes: one call
    with the scenario id where the event runs [ngOnInit], none else. *)
Lemma handle_options (ev : Event) w :
  initialised w ∨ refreshes ev = true →
  after (handle ev w) (λ w',
    initialised w'
    ∧ route_id w' = route_id w
    ∧ options_calls w' =
        options_calls w ++ (if refreshes ev then [options_call w] else [])).
Proof.
  assert (∀ w1 calls,
    http_log w1 = http_log w ++ options_call w :: calls →
    match resolve (resultsToViewSubject w1) with
    | Some v => ∃ c, calls = [c] ∧ Service.method c = view_method v
    | None => calls = []
    end →
    options_calls w1 = options_calls w ++ [options_call w]) as Hlog.
  { intros w1 calls Hl Hcalls. unfold options_calls.
    rewrite Hl, List.filter_app. f_equal. cbn.
    destruct (resolve _) as [v|]; [|by subst].
    destruct Hcalls as (c & -> & Hc). cbn. unfold is_getOptions.
    rewrite Hc. by destruct v as [[]|[]]. }
  intros Hinit.
  destruct ev as [|key|p control y| |i r]; cbn [handle refreshes] in *.
  - eapply after_mono, ngOnInit_frame.
    intros w' (Ht & Hf & Hr & Hs & _ & calls & Hl & _ & Hcalls).
    split; [by split; eexists|]. split; [done|].
    apply (Hlog _ calls); [done|]. by rewrite Hs.
  - eapply after_mono, showResults_frame.
    intros w' (Ht & Hf & Hr & Hs & _ & calls & Hl & _ & Hcalls).
    split; [by split; eexists|]. split; [done|].
    apply (Hlog _ calls); [done|]. by rewrite Hs.
  - destruct Hinit as [Hinit|]; [|done].
    eapply after_mono, setValue_frame.
    intros w' (Hinit' & Hl & _ & Hr & _).
    unfold options_calls. rewrite Hl, app_nil_r. auto.
  - destruct Hinit as [Hinit|]; [|done].
    eapply after_mono, goBack_frame.
    intros w' (Hinit' & Hl & _ & Hr & _).
    unfold options_calls. rewrite Hl, app_nil_r. auto.
  - destruct Hinit as [Hinit|]; [|done].
    eapply after_mono, answer_frame; [|done].
    intros w' (Hinit' & Hl & Hr & _).
    unfold options_calls. rewrite Hl, app_nil_r. auto.
Qed.

Lemma run_options (evs : list Event) w :
  initialised w →
  after (run evs w) (λ w',
    options_calls w' =
      options_calls w
      ++ replicate (length (List.filter refreshes evs)) (options_call w)).
Proof.
  revert w. induction evs as [|ev evs IH]; intros w Hinit.
  - cbn. by rewrite app_nil_r.
  - cbn [run]. apply after_seq.
    eapply after_mono, handle_options; [|by left].
    intros w1 (Hinit1 & Hr & Hl).
    eapply after_mono, IH; [|done]. cbn beta.
    intros w' ->. rewrite Hl. unfold options_call. rewrite Hr.
    cbn [List.filter]. destruct (refreshes ev); cbn [length replicate].
    + by rewrite <-app_assoc.
    + by rewrite app_nil_r.
Qed.

(** C5, as the code has it: the option lists are asked for on every pass
    through [ngOnInit]. In a session of the scenario [id] the calls of
    [getOptions] are one for the initialisation and one for each later
    event that runs [ngOnInit] (a results button pressed), all with [id];
    form choices, answers and going back add none. Each activation
    empties [allResultsForms], to be filled again by the answer. *)
Theorem options_fetched_on_every_refresh (id : Z) (evs : list Event) :
  after (run (Init :: evs) (page id)) (λ w,
    options_calls w =
      replicate (S (length (List.filter refreshes evs)))
        (Service.call Service.getOptions [JNum id]))
  ∧ ∀ key w,
      after (showResults key w) (λ w',
        allResultsForms (this w') = Some []
        ∧ options_calls w' = options_calls w ++ [options_call w]).
Proof.
  split.
  - cbn [run]. apply after_seq.
    eapply after_mono, (handle_options Init); [|by right].
    intros w1 (Hinit1 & Hr & Hl).
    eapply after_mono, run_options; [|done]. cbn beta.
    intros w' ->. rewrite Hl. unfold options_call. by rewrite Hr.
  - intros key w.
    eapply after_and.
    + eapply after_mono, showResults_frame. by intros w' (_ & ? & _).
    + eapply after_mono, (handle_options (Press key)); [|by right].
      by intros w' (_ & _ & ?).
Qed.

End Properties.

(** * Further properties *)

Section Further.

Context {ScenarioResults PlotJSON : Type}.

#[local] Abbreviation World := (@World ScenarioResults PlotJSON).
#[local] Abbreviation Component := (@Component ScenarioResults PlotJSON).
#[local] Abbreviation Stmt := (@Stmt ScenarioResults PlotJSON).
#[local] Abbreviation Response := (@Response ScenarioResults PlotJSON).
#[local] Abbreviation Event := (@Event ScenarioResults PlotJSON).
#[local] Abbreviation Stored := (@Stored ScenarioResults PlotJSON).

Implicit Types (w : World) (key : string).

#[local] Arguments form_value : simpl never.
#[local] Arguments to_js_string : simpl never.

(** *** What one event changes, continued *)


Lemma notify_spec n key w :
  notify n key w =
    Normal (match n with
            | O => w
            | S _ => with_this (set_resultsToShow (Some key)) w
            end).
Proof.
  revert w. induction n as [|n IH]; intros w; [done|].
  cbn [notify seq getResultsToShow_next assign]. rewrite IH.
  destruct n; [done|]. by destruct w as [[] ? ? ? ? ? ?].
Qed.

(** One pass through [ngOnInit], as to the selection, the scenario, the
    buttons, the forms and the arguments of the calls. *)
Lemma ngOnInit_more w :
  after (ngOnInit w) (λ w',
    resultsToShow (this w') = Some (resultsToViewSubject w)
    ∧ subscribers w' = S (subscribers w)
    ∧ scenarioID (this w') = JNum (route_id w)
    ∧ embedded w' = embedded w
    ∧ (∀ q, plot_form q (this w') = plot_form q (this w))
    ∧ (∃ buttons, allResultsButtons (this w') = Some buttons
         ∧ ngIfKey <$> buttons = table_key <$> all_tables)
    ∧ ∃ calls, http_log w' = http_log w ++ calls
        ∧ in_flight w' = in_flight w ++ calls
        ∧ Forall (λ c, head (Service.args c) = Some (JNum (route_id w)))
            calls).
Proof.
  rewrite ngOnInit_dispatch. unfold get_data.
  destruct w as [[] s n r l q e]. cbn [resultsToViewSubject].
  destruct (resolve s) as [[[]|[]]|]; cbn; rewrite <-?app_assoc.
  all: do 4 (split; [done|]).
  all: (split; [by intros []|]).
  all: (split; [by eexists|]).
  all: eexists; (split; [reflexivity|]); (split; [reflexivity|]).
  all: by repeat constructor.
Qed.

Lemma showResults_more key w :
  after (showResults key w) (λ w',
    resultsToShow (this w') = Some key
    ∧ subscribers w' = S (subscribers w)
    ∧ scenarioID (this w') = JNum (route_id w)
    ∧ embedded w' = embedded w
    ∧ (∀ q, plot_form q (this w') = plot_form q (this w))
    ∧ (∃ buttons, allResultsButtons (this w') = Some buttons
         ∧ ngIfKey <$> buttons = table_key <$> all_tables)
    ∧ ∃ calls, http_log w' = http_log w ++ calls
        ∧ in_flight w' = in_flight w ++ calls
        ∧ Forall (λ c, head (Service.args c) = Some (JNum (route_id w)))
            calls).
Proof.
  rewrite showResults_ngOnInit.
  eapply after_mono, ngOnInit_more. by destruct w.
Qed.

(** The handler of an answer, as to the same. *)
Lemma next_more (m : Service.Method) (r : Response) w :
  initialised w →
  after (next m r w) (λ w',
    resultsToShow (this w') = resultsToShow (this w)
    ∧ resultsToViewSubject w' = resultsToViewSubject w
    ∧ subscribers w' = subscribers w
    ∧ (∀ q, plot_form q (this w') = plot_form q (this w))
    ∧ length (embedded w') ≤
        length (embedded w) + (if is_plot_method m then 1 else 0)).
Proof.
  destruct w as [[] s n rt l q e]. intros [[tables Ht] [forms Hf]].
  cbn in Ht, Hf. subst.
  destruct m, r; cbn.
  all: do 3 (split; [done|]).
  all: (split; [by intros []|]).
  all: rewrite ?List.length_app; cbn; lia.
Qed.

Lemma answer_more i (r : Response) w :
  initialised w →
  after (answer i r w) (λ w',
    resultsToShow (this w') = resultsToShow (this w)
    ∧ resultsToViewSubject w' = resultsToViewSubject w
    ∧ subscribers w' = subscribers w
    ∧ (∀ q, plot_form q (this w') = plot_form q (this w))
    ∧ in_flight w' = delete i (in_flight w)
    ∧ length (embedded w') ≤
        length (embedded w)
        + (if from_option is_plot_fetch false (in_flight w !! i)
           then 1 else 0)).
Proof.
  intros Hinit. destruct (in_flight w !! i) as [c|] eqn:Hi.
  - rewrite (answer_Some _ _ _ _ Hi).
    pose proof (next_frame (Service.method c) r (landed i w)) as H1.
    pose proof (next_more (Service.method c) r (landed i w)) as H2.
    destruct (next _ r _) as [w'|]; cbn in H1, H2 |- *;
      [|by apply H1; destruct w].
    destruct H1 as (_ & _ & Hfl & _); [by destruct w|].
    destruct H2 as (? & ? & ? & ? & ?); [by destruct w|].
    destruct w; cbn in *. by repeat split.
  - rewrite (answer_None _ _ _ Hi). cbn. repeat split; try done; [|lia].
    apply lookup_ge_None in Hi. clear Hinit. revert i Hi.
    induction (in_flight w) as [|c l IH]; intros [|i] Hi; cbn in *;
      [done|done|lia|]. f_equal. apply IH. lia.
Qed.

Lemma setValue_more (p : PlotView) (control : string) (x : JsVal) w :
  after (setValue p control x w) (λ w',
    resultsToShow (this w') = resultsToShow (this w)
    ∧ resultsToViewSubject w' = resultsToViewSubject w
    ∧ subscribers w' = subscribers w
    ∧ embedded w' = embedded w
    ∧ (∀ q, q ≠ p → plot_form q (this w') = plot_form q (this w))
    ∧ (∀ c, c ≠ control →
         form_value (plot_form p (this w')) c
         = form_value (plot_form p (this w)) c)
    ∧ (is_Some (plot_form p (this w) !! control) →
         form_value (plot_form p (this w')) control = x)).
Proof.
  unfold setValue.
  destruct (plot_form p (this w) !! control) eqn:Hc.
  - destruct w as [[] s n r l q e], p; cbn in *.
    all: do 4 (split; [done|]).
    all: (split; [by intros []|]).
    all: split; [intros c Hne; unfold form_value; by rewrite lookup_insert_ne
                |intros _; unfold form_value; by rewrite lookup_insert_eq].
  - cbn. do 6 (split; [done|]). by intros [? [=]].
Qed.

Lemma goBack_more w :
  after (goBack w) (λ w',
    resultsToViewSubject w' = ""
    ∧ subscribers w' = subscribers w
    ∧ (0 < subscribers w → resultsToShow (this w') = Some "")
    ∧ (subscribers w = 0 → resultsToShow (this w') = resultsToShow (this w))
    ∧ embedded w' = embedded w
    ∧ route_id w' = route_id w
    ∧ (∀ q, plot_form q (this w') = plot_form q (this w))).
Proof.
  unfold goBack, changeResultsToView. destruct w as [c s n r l q e].
  rewrite notify_spec. destruct n, c; cbn.
  all: do 2 (split; [done|]).
  all: (split; [try done; lia|]); (split; [try done; lia|]).
  all: do 2 (split; [done|]); by intros [].
Qed.

(** *** Sessions never raise *)

Lemma answer_unsafe i (r : Response) w :
  in_flight w = [] → answer i r w = Normal w.
Proof. intros H. apply answer_None. by rewrite H. Qed.

Lemma handle_safe (ev : Event) w : safe w → after (handle ev w) safe.
Proof.
  intros Hsafe. destruct ev as [|key|p control y| |i r]; cbn [handle].
  - eapply after_mono, ngOnInit_frame.
    intros w' (? & ? & _). left. by split; eexists.
  - eapply after_mono, showResults_frame.
    intros w' (? & ? & _). left. by split; eexists.
  - eapply after_mono, setValue_frame.
    intros w' (Hinit & _ & Hfl & _). destruct Hsafe; [left; auto|right].
    by rewrite Hfl.
  - eapply after_mono, goBack_frame.
    intros w' (Hinit & _ & Hfl & _). destruct Hsafe; [left; auto|right].
    by rewrite Hfl.
  - destruct Hsafe as [Hinit|Hnil].
    + eapply after_mono, answer_frame; [|done]. intros w' (? & _). by left.
    + rewrite answer_unsafe by done. by right.
Qed.

Lemma run_safe (evs : list Event) w : safe w → after (run evs w) safe.
Proof.
  revert w. induction evs as [|ev evs IH]; intros w Hsafe; [done|].
  cbn [run]. apply after_seq. eapply after_mono, handle_safe; eauto.
Qed.

Lemma page_safe (id : Z) : safe (page id : World).
Proof. by right. Qed.

(** X1: on a freshly constructed component no event, in whatever order,
    makes a handler push to an array that is still [undefined]: every
    session completes without a [TypeError]. *)
Theorem sessions_raise_no_TypeError (id : Z) (evs : list Event) :
  ∃ w, run evs (page id) = Normal w.
Proof.
  pose proof (run_safe evs (page id) (page_safe id)) as H.
  destruct (run evs (page id)) as [w|]; [by exists w|done].
Qed.

(** X2: [makeResultsButtons] pushes its twelve buttons, with the keys of
    the table views in order, after whatever the array holds, and raises a
    [TypeError] if the array is [undefined]; it clears nothing and makes no
    call. *)
Theorem makeResultsButtons_appends w :
  match allResultsButtons (this w) with
  | Some old =>
      after (makeResultsButtons w) (λ w',
        ∃ new, allResultsButtons (this w') = Some (old ++ new)
          ∧ ngIfKey <$> new = table_key <$> all_tables
          ∧ http_log w' = http_log w
          ∧ allResultsForms (this w') = allResultsForms (this w)
          ∧ ∀ v, stored v (this w') = stored v (this w))
  | None => ∃ e, makeResultsButtons w = Throw e
  end.
Proof.
  destruct w as [[? [old|]] s n r l q e]; cbn; [|by eexists].
  rewrite <-!app_assoc. eexists. split; [reflexivity|].
  do 3 (split; [done|]). by intros [[]|[]].
Qed.

(** X3: every activation leaves exactly the twelve table buttons, with
    pairwise distinct keys, whatever the array held before: the buttons
    do not pile up over refreshes. *)
Theorem buttons_rebuilt_on_every_refresh key w :
  after (showResults key w) (λ w',
    ∃ buttons, allResultsButtons (this w') = Some buttons
      ∧ ngIfKey <$> buttons = table_key <$> all_tables
      ∧ length buttons = 12
      ∧ NoDup (ngIfKey <$> buttons)).
Proof.
  eapply after_mono, showResults_more.
  intros w' (_ & _ & _ & _ & _ & (buttons & Hb & Hkeys) & _).
  exists buttons. split; [done|]. split; [done|]. split.
  - apply (f_equal length) in Hkeys. by rewrite !length_fmap in Hkeys.
  - rewrite Hkeys. by apply (bool_decide_unpack _).
Qed.

(** *** Answers *)

(** X4: the answer to [getOptions] appends seven forms, one per plot view
    in order, after whatever forms the array holds; each form carries its
    view's key and control names, and its selects the option lists of the
    answer (load zones first, then horizons for dispatch, stages for
    energy, cost and capacity factor). Nothing else stored changes. *)
Theorem options_answer_appends_forms i (o : Service.PlotOptions) w
    (c : Service.Call) (forms : list ResultsForm) :
  in_flight w !! i = Some c →
  Service.method c = Service.getOptions →
  allResultsForms (this w) = Some forms →
  after (answer i (Options o) w) (λ w',
    ∃ new, allResultsForms (this w') = Some (forms ++ new)
      ∧ formGroup <$> new = all_plots
      ∧ Forall (λ f,
          ngIfKey (button f) = plot_key (formGroup f)
          ∧ formControlName <$> selectForms f = select_controls (formGroup f)
          ∧ formControlOptions <$> selectForms f
            = select_options (formGroup f) o
          ∧ yMaxFormControlName f = yMax_control (formGroup f)) new
      ∧ allTables (this w') = allTables (this w)
      ∧ ∀ v, stored v (this w') = stored v (this w)).
Proof.
  intros Hi Hm Hf. rewrite (answer_Some _ _ _ _ Hi), Hm.
  destruct w as [[] s n r l q e]. cbn in Hf. subst. cbn.
  rewrite <-!app_assoc. eexists. split; [reflexivity|].
  split; [reflexivity|]. split; [by repeat constructor|].
  split; [done|]. by intros [[]|[]].
Qed.

Lemma answer_plot (p : PlotView) i (api : PlotAPI) w (c : Service.Call) :
  in_flight w !! i = Some c →
  Service.method c = plot_method p →
  after (answer i (Plot api) w) (λ w',
    plot_JSON p (this w') = Some (plotJSON api)
    ∧ embedded w' = embedded w ++ [plotJSON api]
    ∧ plot_HTMLName p (this w') = plot_HTMLName p (this w)
    ∧ allTables (this w') = allTables (this w)
    ∧ ∀ v, v ≠ APlot p → stored v (this w') = stored v (this w)).
Proof.
  intros Hi Hm. rewrite (answer_Some _ _ _ _ Hi), Hm.
  destruct w as [[] s n r l q e], p; cbn.
  all: do 4 (split; [done|]).
  all: intros [[]|[]] Hv; first [done | by destruct Hv].
Qed.

(** X5: the answer to a plot request is stored as the view's JSON and
    embedded once, whatever the form or the selection have become since
    the request was made; the HTML name is left as it is, and so is every
    other stored result. *)
Theorem plot_answer_stores_and_embeds (p : PlotView) i (api : PlotAPI) w
    (c : Service.Call) :
  in_flight w !! i = Some c →
  Service.method c = plot_method p →
  after (answer i (Plot api) w) (λ w',
    plot_JSON p (this w') = Some (plotJSON api)
    ∧ embedded w' = embedded w ++ [plotJSON api]
    ∧ plot_HTMLName p (this w') = plot_HTMLName p (this w)
    ∧ allTables (this w') = allTables (this w)
    ∧ ∀ v, v ≠ APlot p → stored v (this w') = stored v (this w)).
Proof. apply answer_plot. Qed.

(** *** Invariants of a session *)

Lemma count_delete (f : Service.Call → bool) (l : list Service.Call) i :
  length (List.filter f (delete i l))
    + (if from_option f false (l !! i) then 1 else 0)
  = length (List.filter f l).
Proof.
  revert i. induction l as [|c l IH]; intros [|i]; cbn; [done|done| |].
  - destruct (f c); cbn; lia.
  - specialize (IH i). destruct (f c); cbn; [f_equal|]; exact IH.
Qed.

Lemma handle_embeds (ev : Event) w :
  safe w →
  length (embedded w) + length (List.filter is_plot_fetch (in_flight w))
    ≤ length (List.filter is_plot_fetch (http_log w)) →
  after (handle ev w) (λ w',
    length (embedded w') + length (List.filter is_plot_fetch (in_flight w'))
      ≤ length (List.filter is_plot_fetch (http_log w'))).
Proof.
  intros Hsafe Hle. destruct ev as [|key|p control y| |i r]; cbn [handle].
  - eapply after_mono, ngOnInit_more.
    intros w' (_ & _ & _ & -> & _ & _ & calls & -> & -> & _).
    rewrite !List.filter_app, !List.length_app. lia.
  - eapply after_mono, showResults_more.
    intros w' (_ & _ & _ & -> & _ & _ & calls & -> & -> & _).
    rewrite !List.filter_app, !List.length_app. lia.
  - eapply after_two; [|apply setValue_frame|apply setValue_more].
    by intros w' (_ & -> & -> & _) (_ & _ & _ & -> & _).
  - eapply after_two; [|apply goBack_frame|apply goBack_more].
    by intros w' (_ & -> & -> & _) (_ & _ & _ & _ & -> & _).
  - destruct Hsafe as [Hinit|Hnil]; [|by rewrite answer_unsafe].
    eapply after_two; [|by apply answer_frame|by apply answer_more].
    intros w' (_ & -> & _) (_ & _ & _ & _ & -> & Hemb).
    pose proof (count_delete is_plot_fetch (in_flight w) i). lia.
Qed.

(** X6: at any moment of a session the plots embedded so far and the
    plot requests still in flight are together no more than the plot
    requests made: a plot is embedded at most once per request, and never
    without one. *)
Theorem embeds_at_most_once_per_fetch (id : Z) (evs : list Event) :
  after (run evs (page id)) (λ w,
    length (embedded w) + length (List.filter is_plot_fetch (in_flight w))
      ≤ length (List.filter is_plot_fetch (http_log w))).
Proof.
  assert (∀ w, safe w →
    length (embedded w) + length (List.filter is_plot_fetch (in_flight w))
      ≤ length (List.filter is_plot_fetch (http_log w)) →
    after (run evs w) (λ w',
      length (embedded w') + length (List.filter is_plot_fetch (in_flight w'))
        ≤ length (List.filter is_plot_fetch (http_log w')))) as H.
  { induction evs as [|ev evs IH]; intros w Hsafe Hle; [done|].
    cbn [run]. apply after_seq.
    eapply after_mono;
      [|eapply after_and; [by apply handle_safe|by apply handle_embeds]].
    intros w1 [? ?]. by apply IH. }
  apply H; [apply page_safe|done].
Qed.

Lemma handle_selection (ev : Event) w :
  safe w →
  after (handle ev w) (λ w',
    resultsToViewSubject w' = selected (resultsToViewSubject w) [ev]
    ∧ subscribers w' = subscribers w + (if refreshes ev then 1 else 0)
    ∧ ((0 < subscribers w →
         resultsToShow (this w) = Some (resultsToViewSubject w)) →
       0 < subscribers w' →
       resultsToShow (this w') = Some (resultsToViewSubject w'))).
Proof.
  intros Hsafe. destruct ev as [|key|p control y| |i r];
    cbn [handle selected foldl refreshes].
  - eapply after_two; [|apply ngOnInit_frame|apply ngOnInit_more].
    intros w' (_ & _ & _ & Hs & _) (Hr & Hn & _).
    split; [done|]. split; [lia|]. intros _ _. by rewrite Hr, Hs.
  - eapply after_two; [|apply showResults_frame|apply showResults_more].
    intros w' (_ & _ & _ & Hs & _) (Hr & Hn & _).
    split; [done|]. split; [lia|]. intros _ _. by rewrite Hr, Hs.
  - eapply after_mono, setValue_more.
    intros w' (-> & -> & -> & _). split; [done|]. split; [lia|]. auto.
  - eapply after_mono, goBack_more.
    intros w' (-> & -> & Hr & _). split; [done|]. split; [lia|]. auto.
  - destruct Hsafe as [Hinit|Hnil].
    + eapply after_mono, answer_more; [|done].
      intros w' (-> & -> & -> & _). split; [done|]. split; [lia|]. auto.
    + rewrite answer_unsafe by done. cbn. split; [done|]. split; [lia|auto].
Qed.

Lemma selected_cons (start : string) (ev : Event) (evs : list Event) :
  selected start (ev :: evs) = selected (selected start [ev]) evs.
Proof. done. Qed.

Lemma run_selection (evs : list Event) w :
  safe w →
  (0 < subscribers w → resultsToShow (this w) = Some (resultsToViewSubject w)) →
  after (run evs w) (λ w',
    resultsToViewSubject w' = selected (resultsToViewSubject w) evs
    ∧ subscribers w' = subscribers w + length (List.filter refreshes evs)
    ∧ (0 < subscribers w' →
       resultsToShow (this w') = Some (resultsToViewSubject w'))).
Proof.
  revert w. induction evs as [|ev evs IH]; intros w Hsafe Hsync.
  - cbn. split; [done|]. split; [lia|done].
  - cbn [run]. apply after_seq.
    eapply after_mono;
      [|eapply after_and; [by apply handle_safe|by apply handle_selection]].
    intros w1 (Hsafe1 & Hs1 & Hn1 & Hsync1).
    eapply after_mono, IH; [|done|auto]. cbn beta.
    intros w' (Hs & Hn & Hsync').
    rewrite selected_cons, <-Hs1. split; [done|]. split; [|done].
    rewrite Hn, Hn1. cbn [List.filter]. destruct (refreshes ev); cbn; lia.
Qed.

(** X7: once initialised, the component always shows the key last
    published: [this.resultsToShow] is the key of the last button
    pressed, [''] after going back, whatever else has happened since. *)
Theorem shows_the_key_last_selected (id : Z) (evs : list Event) :
  after (run (Init :: evs) (page id)) (λ w,
    resultsToShow (this w) = Some (selected "" evs)
    ∧ resultsToViewSubject w = selected "" evs).
Proof.
  eapply after_mono, (run_selection (Init :: evs) (page id));
    [|apply page_safe|cbn; lia].
  cbn [page resultsToViewSubject subscribers List.filter refreshes length].
  intros w (Hs & Hn & Hsync). rewrite Hsync by lia. by rewrite Hs.
Qed.

(** X8: every pass through [ngOnInit] subscribes to the selection once
    more and nothing ever unsubscribes: the subject has as many
    subscribers as the session has had initialisations and buttons
    pressed. *)
Theorem subscriptions_pile_up (id : Z) (evs : list Event) :
  after (run evs (page id)) (λ w,
    subscribers w = length (List.filter refreshes evs)).
Proof.
  eapply after_mono, (run_selection evs (page id));
    [|apply page_safe|cbn; lia].
  by intros w (_ & -> & _).
Qed.

Lemma handle_calls (ev : Event) w :
  safe w →
  after (handle ev w) (λ w',
    route_id w' = route_id w
    ∧ ∃ calls, http_log w' = http_log w ++ calls
        ∧ Forall (λ c, head (Service.args c) = Some (JNum (route_id w)))
            calls).
Proof.
  intros Hsafe. destruct ev as [|key|p control y| |i r]; cbn [handle].
  - eapply after_two; [|apply ngOnInit_frame|apply ngOnInit_more].
    intros w' (_ & _ & ? & _) (_ & _ & _ & _ & _ & _ & calls & ? & _ & ?).
    split; [done|]. by exists calls.
  - eapply after_two; [|apply showResults_frame|apply showResults_more].
    intros w' (_ & _ & ? & _) (_ & _ & _ & _ & _ & _ & calls & ? & _ & ?).
    split; [done|]. by exists calls.
  - eapply after_mono, setValue_frame.
    intros w' (_ & -> & _ & -> & _). split; [done|].
    exists []. by rewrite app_nil_r.
  - eapply after_mono, goBack_frame.
    intros w' (_ & -> & _ & -> & _). split; [done|].
    exists []. by rewrite app_nil_r.
  - destruct Hsafe as [Hinit|Hnil].
    + eapply after_mono, answer_frame; [|done].
      intros w' (_ & -> & -> & _). split; [done|].
      exists []. by rewrite app_nil_r.
    + rewrite answer_unsafe by done. cbn. split; [done|].
      exists []. by rewrite app_nil_r.
Qed.

(** X9: every call the component makes in a session, for options, a
    table or a plot, has the scenario id of the route as its first
    argument. *)
Theorem calls_carry_the_scenario_id (id : Z) (evs : list Event) :
  after (run evs (page id)) (λ w,
    Forall (λ c, head (Service.args c) = Some (JNum id)) (http_log w)).
Proof.
  assert (∀ w, safe w → route_id w = id →
    Forall (λ c, head (Service.args c) = Some (JNum id)) (http_log w) →
    after (run evs w) (λ w',
      Forall (λ c, head (Service.args c) = Some (JNum id)) (http_log w')))
    as H.
  { induction evs as [|ev evs IH]; intros w Hsafe Hid Hlog; [done|].
    cbn [run]. apply after_seq.
    eapply after_mono;
      [|eapply after_and; [by apply handle_safe|by apply handle_calls]].
    intros w1 (Hsafe1 & Hid1 & calls & Hl & Hcalls).
    apply IH; [done|congruence|].
    rewrite Hl. apply Forall_app. split; [done|]. by rewrite <-Hid. }
  apply H; [apply page_safe|done|constructor].
Qed.

Lemma handle_forms (ev : Event) w :
  safe w → is_choice ev = false →
  after (handle ev w) (λ w',
    ∀ q, plot_form q (this w') = plot_form q (this w)).
Proof.
  intros Hsafe Hev. destruct ev as [|key|p control y| |i r]; cbn [handle].
  - eapply after_mono, ngOnInit_more. by intros w' (_ & _ & _ & _ & ? & _).
  - eapply after_mono, showResults_more. by intros w' (_ & _ & _ & _ & ? & _).
  - done.
  - eapply after_mono, goBack_more.
    by intros w' (_ & _ & _ & _ & _ & _ & ?).
  - destruct Hsafe as [Hinit|Hnil]; [|by rewrite answer_unsafe].
    eapply after_mono, answer_more; [|done]. by intros w' (_ & _ & _ & ? & _).
Qed.

(** X10: the values of the forms change only when the user chooses one:
    activations (although they run the whole of [ngOnInit] again),
    answers and going back leave every control of every form as it is,
    so the filters chosen for a plot are still there when the plot is
    shown again. *)
Theorem forms_change_only_by_choice (evs : list Event) w :
  safe w →
  Forall (λ ev, is_choice ev = false) evs →
  after (run evs w) (λ w',
    ∀ q, plot_form q (this w') = plot_form q (this w)).
Proof.
  intros Hsafe Hevs. revert w Hsafe.
  induction Hevs as [|ev evs Hev _ IH]; intros w Hsafe; [done|].
  cbn [run]. apply after_seq.
  eapply after_mono;
    [|eapply after_and; [by apply handle_safe|by apply handle_forms]].
  intros w1 [Hsafe1 Hforms]. eapply after_mono, IH; [|done]. cbn beta.
  intros w' H q. by rewrite H.
Qed.

(** *** How activations compose *)

(** What activating a view does to the requests, table or plot. *)
Lemma showResults_view (v : View) w :
  after (showResults (view_key v) w) (λ w',
    ∃ c, Service.method c = view_method v
      ∧ http_log w' = http_log w ++ [options_call w; c]
      ∧ in_flight w' = in_flight w ++ [options_call w; c]
      ∧ ∀ w2, route_id w2 = route_id w →
          (∀ q, plot_form q (this w2) = plot_form q (this w)) →
          after (showResults (view_key v) w2) (λ w2',
            http_log w2' = http_log w2 ++ [options_call w; c]
            ∧ in_flight w2' = in_flight w2 ++ [options_call w; c])).
Proof.
  destruct v as [t|p]; cbn [view_key view_method].
  - eapply after_mono, showResults_table.
    intros w' (Hl & Hf & _). eexists. split; [|split; [done|split; [done|]]];
      [done|].
    intros w2 Hr _. eapply after_mono, showResults_table.
    intros w2' (-> & -> & _). unfold options_call. by rewrite Hr.
  - eapply after_mono, showResults_plot.
    intros w' (Hl & Hf & _). eexists. split; [|split; [done|split; [done|]]];
      [done|].
    intros w2 Hr Hforms. eapply after_mono, showResults_plot.
    intros w2' (-> & -> & _). unfold options_call. by rewrite Hr, Hforms.
Qed.

(** X11: nothing is deduplicated or cancelled. Pressing the button of a
    view twice in a row makes its request twice, with the same
    arguments, and both are then in flight. *)
Theorem repeated_activation_fetches_again (v : View) w :
  after (showResults (view_key v) w) (λ w1,
    after (showResults (view_key v) w1) (λ w2,
      ∃ c, Service.method c = view_method v
        ∧ http_log w2 =
            http_log w ++ [options_call w; c; options_call w; c]
        ∧ in_flight w2 =
            in_flight w ++ [options_call w; c; options_call w; c])).
Proof.
  eapply after_two;
    [|apply showResults_view|
     eapply after_and; [apply showResults_frame|apply showResults_more]].
  intros w1 (c & Hm & Hl & Hf & Hagain)
    [(_ & _ & Hr & _) (_ & _ & _ & _ & Hforms & _)].
  eapply after_mono, Hagain; [|done|done].
  intros w2 (-> & ->). exists c. split; [done|].
  by rewrite Hl, Hf, <-!app_assoc.
Qed.

(** X12: going back makes no call and leaves every result in place; it
    publishes the key [''], which no view carries, so that the next pass
    through [ngOnInit] asks for the options and fetches nothing. *)
Theorem goBack_selects_nothing w :
  after (goBack w) (λ w1,
    http_log w1 = http_log w
    ∧ in_flight w1 = in_flight w
    ∧ (∀ v, stored v (this w1) = stored v (this w))
    ∧ after (ngOnInit w1) (λ w2,
        resultsToShow (this w2) = Some ""
        ∧ http_log w2 = http_log w ++ [options_call w]
        ∧ ∀ v, stored v (this w2) = stored v (this w))).
Proof.
  eapply after_two; [|apply goBack_frame|apply goBack_more].
  intros w1 (_ & Hl & Hf & Hr & Hstored) (Hs & _).
  do 3 (split; [done|]).
  eapply after_two; [|apply ngOnInit_frame|apply ngOnInit_more].
  rewrite Hs. cbn [resolve String.eqb Ascii.eqb].
  intros w2 (_ & _ & _ & _ & Hkeep & calls & Hl2 & _ & ->) (Hr2 & _).
  split; [done|]. split.
  - rewrite Hl2, Hl. unfold options_call. by rewrite Hr.
  - intros v. by rewrite Hkeep, Hstored.
Qed.

(** X13: the buttons and the dispatch agree. On the page as built by
    [ngOnInit] and the answer to [getOptions], pressing a key fetches
    exactly one result if a button or a form's button carries the key,
    and none otherwise. *)
Theorem every_button_fetches_once (id : Z) (o : Service.PlotOptions) key :
  after (run [Init; Answer 0 (Options o)] (page id)) (λ w,
    after (showResults key w) (λ w',
      ∃ calls, http_log w' = http_log w ++ calls
        ∧ length (List.filter Service.is_results_fetch calls)
          = if bool_decide (key ∈ catalog_keys (this w)) then 1 else 0)).
Proof.
  eapply after_mono, (resolve_catalog id o). intros w Hcat.
  eapply after_mono, showResults_frame.
  intros w' (_ & _ & _ & _ & _ & calls & Hl & _ & Hcalls).
  eexists. split; [done|]. cbn [List.filter Service.is_results_fetch
    options_call Service.method].
  specialize (Hcat key). destruct (resolve key) as [v|].
  - destruct Hcalls as (c & -> & Hc).
    rewrite bool_decide_eq_true_2 by (apply Hcat; by eexists).
    cbn. unfold Service.is_results_fetch. rewrite Hc.
    by destruct v as [[]|[]].
  - subst. rewrite bool_decide_eq_false_2; [done|].
    intros [? [=]]%Hcat.
Qed.

(** X14: an answer is taken whatever is selected when it arrives. If a
    table view is activated and another key is pressed before its answer
    comes, the late rows are still stored for the table and pushed to
    [allTables], the array just emptied for the new selection. *)
Theorem late_table_answer_lands (t : TableView) key (rows : ScenarioResults)
    w :
  after (showResults (table_key t) w) (λ w1,
    after (showResults key w1) (λ w2,
      after (answer (S (length (in_flight w))) (Rows rows) w2) (λ w3,
        resultsToShow (this w3) = Some key
        ∧ table_result t (this w3) = Some rows
        ∧ allTables (this w3) = Some [rows]))).
Proof.
  eapply after_mono, showResults_table. intros w1 (_ & Hf1 & _).
  eapply after_two; [|apply showResults_frame|apply showResults_more].
  intros w2 (Ht & Hforms & _ & _ & _ & calls & _ & Hf2 & _) (Hshow & _).
  assert (in_flight w2 !! S (length (in_flight w))
    = Some (Service.call (table_method t) [JNum (route_id w)])) as Hi.
  { rewrite Hf2, Hf1, <-app_assoc, lookup_app_r by lia.
    by replace (S (length (in_flight w)) - length (in_flight w)) with 1
      by lia. }
  eapply after_two;
    [|by eapply (answer_table t _ rows w2 _ [])
     |apply answer_more; by split; eexists].
  intros w3 (? & ? & _) (Hshow3 & _). by rewrite Hshow3.
Qed.

(** X15: the answer to a plot request made with the filters of an
    earlier activation can arrive after the plot was activated again
    with other filters: it is then stored and embedded while the HTML
    name is already that of the later filters. *)
Theorem late_plot_answer_meets_new_name (p : PlotView) (control : string)
    (x : JsVal) (api : PlotAPI) w :
  let i := S (length (in_flight w)) in
  after (showResults (plot_key p) w) (λ w1,
    after (setValue p control x w1) (λ w2,
      after (showResults (plot_key p) w2) (λ w3,
        in_flight w3 !! i
          = Some (plot_call p (JNum (route_id w)) (plot_form p (this w)))
        ∧ after (answer i (Plot api) w3) (λ w4,
            plot_JSON p (this w4) = Some (plotJSON api)
            ∧ last (embedded w4) = Some (plotJSON api)
            ∧ plot_HTMLName p (this w4)
              = Some (render_target_name p (plot_form p (this w2))))))).
Proof.
  intros i.
  eapply after_mono, showResults_plot. intros w1 (_ & Hf1 & _).
  eapply after_mono, setValue_frame. intros w2 (_ & _ & Hf2 & _).
  eapply after_mono, showResults_plot. intros w3 (_ & Hf3 & Hname & _).
  assert (in_flight w3 !! i
    = Some (plot_call p (JNum (route_id w)) (plot_form p (this w)))) as Hi.
  { rewrite Hf3, Hf2, Hf1, <-app_assoc, lookup_app_r by (unfold i; lia).
    by replace (i - length (in_flight w)) with 1 by (unfold i; lia). }
  split; [done|].
  eapply after_mono, (answer_plot p i api w3 _ Hi); [|done].
  intros w4 (? & -> & -> & _). split; [done|]. split; [|done].
  apply last_snoc.
Qed.

End Further.

(** * The properties at work on a page *)

Lemma render_target_name_depends_on_selects_witness :
  "dispatchPlotLoadZone" ∈ select_controls DispatchPlot
  ∧ (∀ other, other ∈ select_controls DispatchPlot →
       other ≠ "dispatchPlotLoadZone" →
       form_value (plot_form DispatchPlot
                     (this (dispatch_chosen "ZoneA" JNull))) other
       = form_value (plot_form DispatchPlot
                       (this (dispatch_chosen "ZoneB" (JNum 100)))) other)
  ∧ after (showResults "results-dispatch-plot" (dispatch_chosen "ZoneA" JNull))
      (λ w1',
        after (showResults "results-dispatch-plot"
                 (dispatch_chosen "ZoneB" (JNum 100)))
          (λ w2',
            dispatchPlotHTMLName (this w1') = dispatchPlotHTMLName (this w2')
            ↔ to_js_string (JStr "ZoneA") = to_js_string (JStr "ZoneB"))).
Proof.
  assert ("dispatchPlotLoadZone" ∈ select_controls DispatchPlot) as H1.
  { simpl. apply list_elem_of_here. }
  assert (∀ other, other ∈ select_controls DispatchPlot →
       other ≠ "dispatchPlotLoadZone" →
       form_value (plot_form DispatchPlot
                     (this (dispatch_chosen "ZoneA" JNull))) other
       = form_value (plot_form DispatchPlot
                       (this (dispatch_chosen "ZoneB" (JNum 100)))) other)
    as H2.
  { intros other Hin Hne. simpl in Hin.
    apply elem_of_cons in Hin as [->|Hin]; [done|].
    apply list_elem_of_singleton in Hin as ->. vm_compute. reflexivity. }
  split; [exact H1|]. split; [exact H2|].
  exact (render_target_name_depends_on_selects DispatchPlot
           (dispatch_chosen "ZoneA" JNull) (dispatch_chosen "ZoneB" (JNum 100))
           "dispatchPlotLoadZone" H1 H2).
Defined.

(** Against C1 as stated: the same dispatch form but for the y-axis
    maximum, [null] in one world and [100] in the other, and the two
    activations assign the same HTML name; likewise for a load zone left
    at [null] in one world and chosen as the string ["null"] in the
    other. *)
Lemma changed_filter_same_name :
  let w1 := dispatch_chosen "ZoneA" JNull in
  let w2 := dispatch_chosen "ZoneA" (JNum 100) in
  let w3 : @World Cells string :=
    session 42 [Init; Choose DispatchPlot "dispatchPlotHorizon" (JStr "2030")] in
  let w4 := dispatch_chosen "null" JNull in
  (form_value (dispatchPlotOptionsForm (this w1)) "dispatchPlotYMax" = JNull
   ∧ form_value (dispatchPlotOptionsForm (this w2)) "dispatchPlotYMax"
     = JNum 100
   ∧ after (showResults "results-dispatch-plot" w1) (λ w1',
       after (showResults "results-dispatch-plot" w2) (λ w2',
         dispatchPlotHTMLName (this w1') = Some "dispatchPlot-ZoneA-2030"
         ∧ dispatchPlotHTMLName (this w2') = Some "dispatchPlot-ZoneA-2030")))
  ∧ (form_value (dispatchPlotOptionsForm (this w3)) "dispatchPlotLoadZone"
     = JNull
     ∧ form_value (dispatchPlotOptionsForm (this w4)) "dispatchPlotLoadZone"
       = JStr "null"
     ∧ after (showResults "results-dispatch-plot" w3) (λ w3',
         after (showResults "results-dispatch-plot" w4) (λ w4',
           dispatchPlotHTMLName (this w3') = Some "dispatchPlot-null-2030"
           ∧ dispatchPlotHTMLName (this w4') = Some "dispatchPlot-null-2030"))).
Proof. vm_compute. repeat split. Qed.

Lemma yMax_only_null_is_default_witness :
  JNum 0 ∈ [JUndefined; JNum 0; JStr ""]
  ∧ form_value (plot_form DispatchPlot (this (dispatch_chosen "ZoneA" (JNum 0))))
      (yMax_control DispatchPlot) = JNum 0
  ∧ after (showResults "results-dispatch-plot"
             (dispatch_chosen "ZoneA" (JNum 0)))
      (λ w',
        ∃ c, last (http_log w') = Some c
          ∧ Service.method c = Service.getResultsDispatchPlot
          ∧ last (Service.args c) = Some (JNum 0)).
Proof.
  assert (JNum 0 ∈ [JUndefined; JNum 0; JStr ""]) as H1.
  { apply list_elem_of_further, list_elem_of_here. }
  assert (form_value
            (plot_form DispatchPlot (this (dispatch_chosen "ZoneA" (JNum 0))))
            (yMax_control DispatchPlot) = JNum 0) as H2.
  { vm_compute. reflexivity. }
  split; [exact H1|]. split; [exact H2|].
  exact (yMax_only_null_is_default DispatchPlot
           (dispatch_chosen "ZoneA" (JNum 0)) (JNum 0) H1 H2).
Defined.

Lemma table_activation_witness :
  in_flight (session 42 [Init; Press "results-system-prm"]) !! 2
    = Some (Service.call Service.getResultsSystemPRM [JNum 42])
  ∧ allTables (this (session 42 [Init; Press "results-system-prm"]))
    = Some []
  ∧ after (answer 2 (Rows [["PRM"; "0.15"]])
             (session 42 [Init; Press "results-system-prm"]))
      (λ w',
        table_result SystemPRM (this w') = Some [["PRM"; "0.15"]]
        ∧ allTables (this w') = Some ([] ++ [[["PRM"; "0.15"]]])).
Proof.
  assert (in_flight (session 42 [Init; Press "results-system-prm"]) !! 2
    = Some (Service.call Service.getResultsSystemPRM [JNum 42])) as H1.
  { vm_compute. reflexivity. }
  assert (allTables (this (session 42 [Init; Press "results-system-prm"]))
    = Some []) as H2.
  { vm_compute. reflexivity. }
  split; [exact H1|]. split; [exact H2|].
  exact (proj1 (proj2 (table_activation SystemPRM [["PRM"; "0.15"]]))
           (session 42 [Init; Press "results-system-prm"]) 2
           (Service.call Service.getResultsSystemPRM [JNum 42]) []
           H1 eq_refl H2).
Defined.

(** Against C4 as stated: two table views activated and answered in one
    session, both results stored, and [allTables] holds the later one
    only; and a button pressed twice before its answers arrive, after
    which [allTables] holds the same table twice. *)
Lemma allTables_forgets_earlier_tables :
  after (run [Init;
              Press "results-project-capacity";
              Answer 2 (Rows [["Wind"; "100"]]);
              Press "results-project-retirements";
              Answer 3 (Rows [["Coal"; "50"]])] (page 42))
    (λ w : @World Cells string,
      resultsProjectCapacity (this w) = Some [["Wind"; "100"]]
      ∧ resultsProjectRetirements (this w) = Some [["Coal"; "50"]]
      ∧ allTables (this w) = Some [[["Coal"; "50"]]])
  ∧ after (run [Init;
                Press "results-system-prm";
                Press "results-system-prm";
                Answer 2 (Rows [["PRM"; "0.15"]]);
                Answer 3 (Rows [["PRM"; "0.15"]])] (page 42))
      (λ w : @World Cells string,
        resultsSystemPRM (this w) = Some [["PRM"; "0.15"]]
        ∧ allTables (this w) = Some [[["PRM"; "0.15"]]; [["PRM"; "0.15"]]]).
Proof. vm_compute. repeat split. Qed.

(** Against C5 as stated: the forms are built from the first answer; the
    next activation asks for the options a second time and empties the
    forms. *)
Lemma options_fetched_again :
  after (run [Init; Answer 0 (Options some_options)] (page 42))
    (λ w1 : @World Cells string,
      options_calls w1 = [Service.call Service.getOptions [JNum 42]]
      ∧ length <$> allResultsForms (this w1) = Some 7
      ∧ after (showResults "results-project-capacity" w1) (λ w2,
          options_calls w2 =
            [Service.call Service.getOptions [JNum 42];
             Service.call Service.getOptions [JNum 42]]
          ∧ allResultsForms (this w2) = Some [])).
Proof. vm_compute. repeat split. Qed.

(** Against C6 as stated: a key that no button carries is selected like
    any other; the activation completes normally (that is what [after]
    says), asks for the options and fetches nothing. *)
Lemma unknown_key_raises_nothing :
  after (run [Init; Answer 0 (Options some_options)] (page 42))
    (λ w1 : @World Cells string,
      bool_decide ("results-nonsense" ∈ catalog_keys (this w1)) = false
      ∧ after (showResults "results-nonsense" w1) (λ w2,
          resultsToShow (this w2) = Some "results-nonsense"
          ∧ http_log w2 =
              http_log w1 ++ [Service.call Service.getOptions [JNum 42]])).
Proof. vm_compute. repeat split. Qed.

Lemma other_views_keep_results_witness :
  initialised capacity_shown
  ∧ Forall (λ c, Service.method c ≠ view_method (Table ProjectCapacity))
      (in_flight capacity_shown)
  ∧ Forall (@leaves_alone Cells string (Table ProjectCapacity))
      [Press "results-dispatch-plot";
       Answer 1 (Plot {| plotJSON := "{}" |});
       Choose DispatchPlot "dispatchPlotYMax" (JNum 100);
       Press "results-project-carbon";
       Leave]
  ∧ after (run [Press "results-dispatch-plot";
                Answer 1 (Plot {| plotJSON := "{}" |});
                Choose DispatchPlot "dispatchPlotYMax" (JNum 100);
                Press "results-project-carbon";
                Leave] capacity_shown)
      (λ w',
        stored (Table ProjectCapacity) (this w')
        = StoredRows (Some [["Wind"; "100"]])).
Proof.
  assert (initialised capacity_shown) as H1.
  { vm_compute. split; eexists; reflexivity. }
  assert (Forall (λ c, Service.method c ≠ view_method (Table ProjectCapacity))
            (in_flight capacity_shown)) as H2.
  { vm_compute. constructor. }
  assert (Forall (@leaves_alone Cells string (Table ProjectCapacity))
      [Press "results-dispatch-plot";
       Answer 1 (Plot {| plotJSON := "{}" |});
       Choose DispatchPlot "dispatchPlotYMax" (JNum 100);
       Press "results-project-carbon";
       Leave]) as H3.
  { repeat constructor; simpl; discriminate. }
  split; [exact H1|]. split; [exact H2|]. split; [exact H3|].
  exact (other_views_keep_results (Table ProjectCapacity) _ capacity_shown
           H1 H2 H3).
Defined.

Lemma options_answer_appends_forms_witness :
  let w : @World Cells string :=
    session 42 [Init; Press "results-project-capacity";
                Answer 0 (Options some_options)] in
  in_flight w !! 0 = Some (Service.call Service.getOptions [JNum 42])
  ∧ length <$> allResultsForms (this w) = Some 7
  ∧ after (answer 0 (Options some_options) w) (λ w',
      length <$> allResultsForms (this w') = Some 14).
Proof.
  cbv zeta.
  set (w := session 42 [Init; Press "results-project-capacity";
                        Answer 0 (Options some_options)]).
  assert (in_flight w !! 0 = Some (Service.call Service.getOptions [JNum 42]))
    as H1.
  { vm_compute. reflexivity. }
  assert (allResultsForms (this w)
    = Some (default [] (allResultsForms (this w)))) as H3.
  { vm_compute. reflexivity. }
  split; [exact H1|]. split; [vm_compute; reflexivity|].
  eapply after_mono;
    [|exact (options_answer_appends_forms 0 some_options w _ _ H1 eq_refl H3)].
  intros w' (new & -> & Hnew & _).
  apply (f_equal length) in Hnew. rewrite length_fmap in Hnew.
  change (Some (length (default [] (allResultsForms (this w)) ++ new))
          = Some 14).
  rewrite List.length_app, Hnew. vm_compute. reflexivity.
Defined.

Lemma plot_answer_stores_and_embeds_witness :
  let w : @World Cells string :=
    session 42
      [Init;
       Choose DispatchPlot "dispatchPlotLoadZone" (JStr "ZoneA");
       Press "results-dispatch-plot";
       Choose DispatchPlot "dispatchPlotLoadZone" (JStr "ZoneB");
       Press "results-dispatch-plot"] in
  in_flight w !! 2
    = Some (Service.call Service.getResultsDispatchPlot
              [JNum 42; JStr "ZoneA"; JNull; JStr "default"])
  ∧ after (answer 2 (Plot {| plotJSON := "{ZoneA}" |}) w) (λ w',
      dispatchPlotJSON (this w') = Some "{ZoneA}"
      ∧ embedded w' = ["{ZoneA}"]
      ∧ dispatchPlotHTMLName (this w') = Some "dispatchPlot-ZoneB-null").
Proof.
  cbv zeta.
  set (w := session 42 _).
  assert (in_flight w !! 2
    = Some (Service.call Service.getResultsDispatchPlot
              [JNum 42; JStr "ZoneA"; JNull; JStr "default"])) as H1.
  { vm_compute. reflexivity. }
  split; [exact H1|].
  eapply after_mono;
    [|exact (plot_answer_stores_and_embeds DispatchPlot 2
               {| plotJSON := "{ZoneA}" |} w _ H1 eq_refl)].
  intros w' (Hjson & Hemb & Hname & _).
  cbn [plot_JSON plot_HTMLName] in Hjson, Hname.
  split; [exact Hjson|]. split; [rewrite Hemb|rewrite Hname];
    vm_compute; reflexivity.
Defined.

Lemma forms_change_only_by_choice_witness :
  safe (dispatch_chosen "ZoneA" (JNum 100))
  ∧ Forall (λ ev : @Event Cells string, is_choice ev = false)
      [Press "results-dispatch-plot";
       Answer 1 (Plot {| plotJSON := "{}" |});
       Press "results-project-capacity";
       Leave]
  ∧ after (run [Press "results-dispatch-plot";
                Answer 1 (Plot {| plotJSON := "{}" |});
                Press "results-project-capacity";
                Leave] (dispatch_chosen "ZoneA" (JNum 100)))
      (λ w',
        form_value (dispatchPlotOptionsForm (this w')) "dispatchPlotLoadZone"
          = JStr "ZoneA"
        ∧ form_value (dispatchPlotOptionsForm (this w')) "dispatchPlotYMax"
          = JNum 100).
Proof.
  assert (safe (dispatch_chosen "ZoneA" (JNum 100))) as H1.
  { left. vm_compute. split; eexists; reflexivity. }
  assert (Forall (λ ev : @Event Cells string, is_choice ev = false)
      [Press "results-dispatch-plot";
       Answer 1 (Plot {| plotJSON := "{}" |});
       Press "results-project-capacity";
       Leave]) as H2.
  { repeat constructor. }
  split; [exact H1|]. split; [exact H2|].
  eapply after_mono;
    [|exact (forms_change_only_by_choice _ _ H1 H2)].
  intros w' Hforms. specialize (Hforms DispatchPlot). simpl in Hforms.
  rewrite Hforms. split; vm_compute; reflexivity.
Defined.
